(** * mShell (smallsh): a shallow embedding of [mshell.c]

    The shell reads a line, expands the process-id marker, tokenizes the line
    into a [Command], and routes it to a builtin ([cd], [status], [exit]) or
    to a forked child.  SIGTSTP toggles foreground-only mode through two
    handlers that re-register each other.

    Conventions of the embedding:
    - C strings are [string]; fixed-size buffers keep their capacity, and a
      write past the capacity is an undefined-behaviour outcome ([Undef]);
    - the [args] array is a list of [MAX_ARGS] slots, [None] for a NULL
      pointer;
    - [int] values are [Z];
    - the operating system (fork, waitpid, open, dup2, chdir, getenv, signal
      delivery) is an explicit oracle passed to the function that calls it;
    - what the process writes is kept as the list of chunks written, one per
      [printf]/[write]/[perror] call, in order. *)

From Stdlib Require Import ZArith String Ascii List Lia DecimalString.
From stdpp Require Import base list.

Open Scope string_scope.

(** ** Outcomes of C code *)

Inductive Fault :=
| NullDeref        (* a NULL pointer handed to strcpy / strcmp *)
| BufferOverflow   (* a write past a fixed-size char buffer *)
| OutOfBounds.     (* an index outside the [args] array *)

Inductive res (A : Type) :=
| Ok (a : A)
| Undef (f : Fault)
| Timeout.          (* the model's fuel ran out; see [expandPid_total] *)
Arguments Ok {A} a.
Arguments Undef {A} f.
Arguments Timeout {A}.

(** Sequencing stops at the first outcome that is not [Ok]; the notation
    [x ← m; k] is stdpp's, through [MBind]. *)
#[global] Instance res_bind : MBind res := fun A B (k : A -> res B) (m : res A) =>
  match m with
  | Ok a => k a
  | Undef f => Undef f
  | Timeout => Timeout
  end.

(** ** Constants of the source *)

Definition MAX_ARGS : nat := 512.
Definition MAX_INPUT : nat := 2048.
(** [char inputFile[50]], [char outputFile[50]] *)
Definition FILE_NAME_MAX : nat := 50.
Definition EXIT_FAILURE : Z := 1.

(** ** C string helpers *)

Module CStr.

(** The newline character of the C literals. *)
Definition nl : string := String (ascii_of_nat 10) "".

(** [printf("%d", z)] *)
Definition fmt_d (z : Z) : string := NilZero.string_of_int (Z.to_int z).

Fixpoint stake (n : nat) (s : string) : string :=
  match n, s with
  | S n', String c s' => String c (stake n' s')
  | _, _ => ""
  end.

Fixpoint sdrop (n : nat) (s : string) : string :=
  match n, s with
  | S n', String _ s' => sdrop n' s'
  | _, _ => s
  end.

(** [strstr(hay, needle)]: offset of the first occurrence, or NULL. *)
Fixpoint strstr (hay needle : string) : option nat :=
  if String.prefix needle hay then Some 0
  else match hay with
       | "" => None
       | String _ hay' => option_map S (strstr hay' needle)
       end.

(** [strcspn(s, "\n")] followed by writing the terminator there. *)
Fixpoint chop_newline (s : string) : string :=
  match s with
  | "" => ""
  | String c s' => if Ascii.eqb c (ascii_of_nat 10) then "" else String c (chop_newline s')
  end.

(** All tokens that successive [strtok(.., " ")] calls return: the maximal
    runs of characters other than the space.  [cur] is the token being
    scanned, if any. *)
Fixpoint strtok_from (s : string) (cur : option string) : list string :=
  match s with
  | "" => match cur with Some t => [t] | None => [] end
  | String c s' =>
      if Ascii.eqb c " "%char then
        match cur with
        | Some t => t :: strtok_from s' None
        | None => strtok_from s' None
        end
      else
        strtok_from s' (Some (match cur with Some t => t ++ String c "" | None => String c "" end))
  end.

Definition strtok_all (s : string) : list string := strtok_from s None.

Fixpoint count_char (c : ascii) (s : string) : nat :=
  match s with
  | "" => 0
  | String d s' => (if Ascii.eqb d c then 1 else 0) + count_char c s'
  end.

End CStr.
Import CStr.

(** ** Wait statuses

    [WIFEXITED], [WEXITSTATUS], [WIFSIGNALED] and [WTERMSIG] are macros of the
    platform's <sys/wait.h>, not of the repository; they are written here as
    glibc defines them, on the [int] status. *)

Module WaitStatus.
Local Open Scope Z_scope.

Definition WTERMSIG (status : Z) : Z := Z.land status 127.
Definition WEXITSTATUS (status : Z) : Z := Z.shiftr (Z.land status 65280) 8.
Definition WIFEXITED (status : Z) : bool := WTERMSIG status =? 0.

(** [(signed char) x] for [0 <= x < 256]. *)
Definition signed_char (x : Z) : Z := if x <? 128 then x else x - 256.

Definition WIFSIGNALED (status : Z) : bool :=
  0 <? Z.shiftr (signed_char (Z.land status 127 + 1)) 1.

(** The status [waitpid] stores for a child that called [exit(code)]. *)
Definition exited_with (code : Z) : Z := Z.shiftl code 8.
(** The status [waitpid] stores for a child killed by signal [sig]. *)
Definition killed_by (sig : Z) (core : bool) : Z :=
  Z.lor sig (if core then 128 else 0).

End WaitStatus.
Import WaitStatus.

(** ** The Command struct *)

Record Command := mkCommand {
  rawCommand : string;
  numArgs : Z;
  args : list (option string);
  inputRedirect : bool;
  inputFile : string;
  outputRedirect : bool;
  outputFile : string;
  backgroundProcess : bool;
  pid : Z
}.

(** [calloc(1, sizeof(struct Command))] *)
Definition calloc_Command : Command :=
  mkCommand "" 0 (replicate MAX_ARGS None) false "" false "" false 0.

Definition set_rawCommand (v : string) (c : Command) : Command :=
  mkCommand v (numArgs c) (args c) (inputRedirect c) (inputFile c)
            (outputRedirect c) (outputFile c) (backgroundProcess c) (pid c).
Definition set_numArgs (v : Z) (c : Command) : Command :=
  mkCommand (rawCommand c) v (args c) (inputRedirect c) (inputFile c)
            (outputRedirect c) (outputFile c) (backgroundProcess c) (pid c).
Definition set_args (v : list (option string)) (c : Command) : Command :=
  mkCommand (rawCommand c) (numArgs c) v (inputRedirect c) (inputFile c)
            (outputRedirect c) (outputFile c) (backgroundProcess c) (pid c).
Definition set_inputRedirect (v : bool) (c : Command) : Command :=
  mkCommand (rawCommand c) (numArgs c) (args c) v (inputFile c)
            (outputRedirect c) (outputFile c) (backgroundProcess c) (pid c).
Definition set_inputFile (v : string) (c : Command) : Command :=
  mkCommand (rawCommand c) (numArgs c) (args c) (inputRedirect c) v
            (outputRedirect c) (outputFile c) (backgroundProcess c) (pid c).
Definition set_outputRedirect (v : bool) (c : Command) : Command :=
  mkCommand (rawCommand c) (numArgs c) (args c) (inputRedirect c) (inputFile c)
            v (outputFile c) (backgroundProcess c) (pid c).
Definition set_outputFile (v : string) (c : Command) : Command :=
  mkCommand (rawCommand c) (numArgs c) (args c) (inputRedirect c) (inputFile c)
            (outputRedirect c) v (backgroundProcess c) (pid c).
Definition set_backgroundProcess (v : bool) (c : Command) : Command :=
  mkCommand (rawCommand c) (numArgs c) (args c) (inputRedirect c) (inputFile c)
            (outputRedirect c) (outputFile c) v (pid c).

(** Reading and writing a slot of a C array of [length a] elements. *)
Definition arr_get {A} (a : list A) (i : Z) : res A :=
  if (i <? 0)%Z then Undef OutOfBounds
  else match a !! Z.to_nat i with
       | Some x => Ok x
       | None => Undef OutOfBounds
       end.

Definition arr_set {A} (a : list A) (i : Z) (x : A) : res (list A) :=
  if ((0 <=? i)%Z && (i <? Z.of_nat (length a))%Z)%bool
  then Ok (<[Z.to_nat i := x]> a)
  else Undef OutOfBounds.

(** The argument vector as [execvp] reads it: the slots up to the first
    NULL. *)
Fixpoint argv (a : list (option string)) : list string :=
  match a with
  | Some t :: a' => t :: argv a'
  | _ => []
  end.

(** [strcpy(dst, src)] into a [char dst[cap]], [src] possibly NULL. *)
Definition strcpy_into (cap : nat) (src : option string) : res string :=
  match src with
  | None => Undef NullDeref
  | Some s => if (String.length s <? cap)%nat then Ok s else Undef BufferOverflow
  end.

(** ** parseCommand *)

(** One iteration of the [$$] loop: [pos = strstr(raw, "$$")],
    [strcpy(buff, pos+2)], [sprintf(pos, "%d%s", getpid(), buff)]. *)
Definition expand_at (digits : string) (raw : string) (i : nat) : res string :=
  let buff := sdrop (i + 2) raw in
  let raw' := stake i raw ++ digits ++ buff in
  if (String.length raw' <? MAX_INPUT)%nat then Ok raw' else Undef BufferOverflow.

Fixpoint expand_loop (fuel : nat) (digits : string) (raw : string) : res string :=
  match strstr raw "$$" with
  | None => Ok raw
  | Some i =>
      match fuel with
      | O => Timeout
      | S fuel' => r ← expand_at digits raw i; expand_loop fuel' digits r
      end
  end.

(** [while((pos = strstr(cmnd->rawCommand,"$$"))) {...}]; every iteration
    removes two [$] characters, so [String.length raw] iterations suffice. *)
Definition expandPid (shell_pid : Z) (raw : string) : res string :=
  expand_loop (String.length raw) (fmt_d shell_pid) raw.

(** The tokenizing [while(token != NULL)] loop, over the tokens [strtok]
    yields; the empty list is [token == NULL]. *)
Fixpoint tokenLoop (toks : list string) (c : Command) : res Command :=
  match toks with
  | [] => Ok c
  | token :: rest =>
      if String.eqb token "<" then
        let c := set_inputRedirect true c in
        match rest with
        | [] => f ← strcpy_into FILE_NAME_MAX None; Ok (set_inputFile f c)
        | target :: rest' =>
            f ← strcpy_into FILE_NAME_MAX (Some target);
            tokenLoop rest' (set_inputFile f c)
        end
      else if String.eqb token ">" then
        let c := set_outputRedirect true c in
        match rest with
        | [] => f ← strcpy_into FILE_NAME_MAX None; Ok (set_outputFile f c)
        | target :: rest' =>
            f ← strcpy_into FILE_NAME_MAX (Some target);
            tokenLoop rest' (set_outputFile f c)
        end
      else
        a ← arr_set (args c) (numArgs c) (Some token);
        tokenLoop rest (set_numArgs (numArgs c + 1)%Z (set_args a c))
  end.

(** The final [if(strcmp(cmnd->args[cmnd->numArgs-1], "&")==0)] of
    [parseCommand]. *)
Definition backgroundCheck (c : Command) : res Command :=
  last_arg ← arr_get (args c) (numArgs c - 1)%Z;
  match last_arg with
  | None => Undef NullDeref
  | Some t =>
      if String.eqb t "&" then
        a ← arr_set (args c) (numArgs c - 1)%Z None;
        Ok (set_args a (set_backgroundProcess true c))
      else
        a ← arr_set (args c) (numArgs c) None;
        Ok (set_args a c)
  end.

(** The characters of a token: up to the first space, which [strtok]
    overwrites with the terminator. *)
Fixpoint token_run (s : string) : string :=
  match s with
  | "" => ""
  | String c s' => if Ascii.eqb c " "%char then "" else String c (token_run s')
  end.

(** How the buffer reads as a C string once [strtok(cmnd->rawCommand, " ")]
    has been called: the leading spaces it skipped and the first token; the
    delimiter after that token now is the terminator.  A buffer with no
    token is not written. *)
Fixpoint strtok_residue (s : string) : string :=
  match s with
  | "" => ""
  | String c s' =>
      if Ascii.eqb c " "%char then String c (strtok_residue s')
      else String c (token_run s')
  end.

(** The state after the expansion and the tokenizing loop, before the
    background check.  The tokens point into [rawCommand], which [strtok]
    cuts at the end of the first one. *)
Definition tokenize (shell_pid : Z) (c : Command) : res Command :=
  raw ← expandPid shell_pid (rawCommand c);
  tokenLoop (strtok_all raw) (set_rawCommand (strtok_residue raw) c).

Definition parseCommand (shell_pid : Z) (c : Command) : res Command :=
  c1 ← tokenize shell_pid c;
  backgroundCheck c1.

(** The struct as [getCommand] hands it to [parseCommand]. *)
Definition fresh (raw : string) : Command := set_rawCommand raw calloc_Command.

(** What the claim about the expansion compares with: one left-to-right scan
    that replaces each marker it meets and copies every other character. *)
Fixpoint replace_markers (digits : string) (s : string) : string :=
  match s with
  | "" => ""
  | String c s' =>
      if Ascii.eqb c "$"%char then
        match s' with
        | String d s'' =>
            if Ascii.eqb d "$"%char then digits ++ replace_markers digits s''
            else String c (replace_markers digits s')
        | "" => String c ""
        end
      else String c (replace_markers digits s')
  end.

(** The number of markers the same scan meets. *)
Fixpoint count_markers (s : string) : nat :=
  match s with
  | "" => 0
  | String c s' =>
      if Ascii.eqb c "$"%char then
        match s' with
        | String d s'' =>
            if Ascii.eqb d "$"%char then S (count_markers s'')
            else count_markers s'
        | "" => 0
        end
      else count_markers s'
  end.

(** ** getCommand *)

Inductive Reader :=
| Returned (cmnd : Command) (stdin' : list (option string)) (prompts : nat)
| ReaderExit (code : Z)            (* the process terminated inside the reader *)
| ReaderUndef (f : Fault)
| StillReading (prompts : nat).    (* still inside [while(1)] when the fuel ran out *)

(** The condition under which a read is discarded:
    [numChars <= 1 || line[0]==' ' || line[0]=='#']; [None] is the [-1]
    that [getline] returns at end-of-input. *)
Definition discarded (r : option string) : bool :=
  match r with
  | None => true
  | Some line =>
      (String.length line <=? 1)%nat
      || match line with
         | String c _ => Ascii.eqb c " "%char || Ascii.eqb c "#"%char
         | "" => false
         end
  end.

(** [stdin] is the script of results of the next [getline] calls; when it is
    exhausted the stream is at end-of-input and every further [getline]
    returns [-1] ([clearerr] resets the indicator, not the stream).  [fuel]
    bounds the iterations of [while(1)]; [prompts] counts the [": "] written. *)
Fixpoint getCommand (fuel : nat) (stdin : list (option string)) (cmnd : Command)
    (prompts : nat) : Reader :=
  match fuel with
  | O => StillReading prompts
  | S fuel' =>
      let prompts := S prompts in
      let r := match stdin with [] => None | r :: _ => r end in
      let stdin' := match stdin with [] => [] | _ :: rest => rest end in
      match r with
      | Some line =>
          if discarded r then getCommand fuel' stdin' cmnd prompts
          else match strcpy_into MAX_INPUT (Some (chop_newline line)) with
               | Ok raw => Returned (set_rawCommand raw cmnd) stdin' prompts
               | Undef f => ReaderUndef f
               | Timeout => StillReading prompts
               end
      | None => getCommand fuel' stdin' cmnd prompts
      end
  end.

(** ** The interpreter's state *)

(** Which handler [sigaction] currently has installed for SIGTSTP. *)
Inductive TstpHandler := H_foregroundonly | H_allowbackground.

Record Shell := mkShell {
  allowBackground : bool;
  sigtstpTriggered : bool;
  processActive : bool;
  tstpHandler : TstpHandler;
  exitStatus : Z;                (* [int exitStatus] of [shell] *)
  cwd : string;                  (* the working directory *)
  out : list string;             (* chunks written to standard output *)
  err : list string              (* chunks written to standard error *)
}.

Definition set_allowBackground (v : bool) (s : Shell) : Shell :=
  mkShell v (sigtstpTriggered s) (processActive s) (tstpHandler s)
          (exitStatus s) (cwd s) (out s) (err s).
Definition set_sigtstpTriggered (v : bool) (s : Shell) : Shell :=
  mkShell (allowBackground s) v (processActive s) (tstpHandler s)
          (exitStatus s) (cwd s) (out s) (err s).
Definition set_processActive (v : bool) (s : Shell) : Shell :=
  mkShell (allowBackground s) (sigtstpTriggered s) v (tstpHandler s)
          (exitStatus s) (cwd s) (out s) (err s).
Definition set_tstpHandler (v : TstpHandler) (s : Shell) : Shell :=
  mkShell (allowBackground s) (sigtstpTriggered s) (processActive s) v
          (exitStatus s) (cwd s) (out s) (err s).
Definition set_exitStatus (v : Z) (s : Shell) : Shell :=
  mkShell (allowBackground s) (sigtstpTriggered s) (processActive s) (tstpHandler s)
          v (cwd s) (out s) (err s).
Definition set_cwd (v : string) (s : Shell) : Shell :=
  mkShell (allowBackground s) (sigtstpTriggered s) (processActive s) (tstpHandler s)
          (exitStatus s) v (out s) (err s).
(** One [printf]/[write] on standard output. *)
Definition print (chunk : string) (s : Shell) : Shell :=
  mkShell (allowBackground s) (sigtstpTriggered s) (processActive s) (tstpHandler s)
          (exitStatus s) (cwd s) (out s ++ [chunk]) (err s).
(** One [perror]/[fprintf(stderr, ..)]. *)
Definition eprint (chunk : string) (s : Shell) : Shell :=
  mkShell (allowBackground s) (sigtstpTriggered s) (processActive s) (tstpHandler s)
          (exitStatus s) (cwd s) (out s) (err s ++ [chunk]).

(** [perror(prefix)]: the chunk is the prefix the call passes; the text of
    [errno] that the platform appends is not part of the program. *)
Definition perror (prefix : string) : string := prefix.

(** The state [shell] starts its loop in: the globals' initializers,
    [sigtstpSet], [int exitStatus = 0]. *)
Definition shell_init (dir : string) : Shell :=
  mkShell true false false H_foregroundonly 0 dir [] [].

(** ** reportStatus, cd, burnZombie, burnEverything *)

Definition reportStatus (status : Z) (s : Shell) : Shell :=
  if WIFEXITED status then
    print ("exit value " ++ fmt_d (WEXITSTATUS status) ++ nl) s
  else if WIFSIGNALED status then
    print ("terminated by signal " ++ fmt_d (WTERMSIG status) ++ nl) s
  else s.

(** What the interpreter asks of the operating system while it routes one
    command. *)
Record OS := mkOS {
  os_home : option string;                       (* getenv("HOME") *)
  os_chdir : string -> string -> option string;  (* cwd, path: the new cwd when chdir succeeds *)
  os_fork : option Z;                            (* fork(): None for -1, else the child's pid *)
  os_wait : Z;                                   (* the status waitpid(childPid, ..) stores *)
  os_tstp : nat                                  (* SIGTSTP deliveries while the command is active *)
}.

(** [chdir(path)], [path] possibly NULL (no such path: the call fails). *)
Definition chdir (os : OS) (path : option string) (s : Shell) : option Shell :=
  match path with
  | None => None
  | Some p =>
      match os_chdir os (cwd s) p with
      | Some d => Some (set_cwd d s)
      | None => None
      end
  end.

Definition cd (os : OS) (dir : option string) (s : Shell) : Shell :=
  match dir with
  | None =>
      match chdir os (os_home os) s with
      | Some s' => s'
      | None => s
      end
  | Some d =>
      match chdir os (Some d) s with
      | Some s' => s'
      | None => eprint (perror "Nope") s
      end
  end.

(** [waits] are the results [(zPid, zStatus)] of the successive
    [waitpid(0, &zStatus, WNOHANG)] calls; the empty list is a call that
    returned no child. *)
Fixpoint burnZombie (waits : list (Z * Z)) (s : Shell) : Shell :=
  match waits with
  | [] => s
  | (zPid, zStatus) :: rest =>
      if (0 <? zPid)%Z then
        burnZombie rest
          (reportStatus zStatus (print ("background pid " ++ fmt_d zPid ++ " is done: ") s))
      else s
  end.

(** [burnEverything] reaps, ignores SIGTERM and signals the process group:
    it acts on the children only and writes none of the interpreter's
    variables. *)
Definition burnEverything (s : Shell) : Shell := s.

(** ** The SIGTSTP handlers

    [sigaction(SIGTSTP, ..)] with a valid signal number and valid pointers
    does not fail, so the handlers' two empty error branches are not taken. *)

Definition bgOn : string := nl ++ "Exiting foreground-only mode." ++ nl ++ ": ".
Definition bgOff : string :=
  nl ++ "Entering foreground-only mode (& is now ignored)." ++ nl ++ ": ".

Definition allowbackground (s : Shell) : Shell :=
  let s := set_tstpHandler H_foregroundonly s in
  let s := set_allowBackground true s in
  let s := set_sigtstpTriggered true s in
  if negb (processActive s) then set_sigtstpTriggered false (print bgOn s)
  else s.

Definition foregroundonly (s : Shell) : Shell :=
  let s := set_tstpHandler H_allowbackground s in
  let s := set_allowBackground false s in
  let s := set_sigtstpTriggered true s in
  if negb (processActive s) then set_sigtstpTriggered false (print bgOff s)
  else s.

(** One delivery of SIGTSTP: the installed handler runs. *)
Definition deliver_sigtstp (s : Shell) : Shell :=
  match tstpHandler s with
  | H_foregroundonly => foregroundonly s
  | H_allowbackground => allowbackground s
  end.

Fixpoint deliveries (n : nat) (s : Shell) : Shell :=
  match n with
  | O => s
  | S n' => deliveries n' (deliver_sigtstp s)
  end.

(** ** inputoutputRedirect and the forked child *)

(** What a standard stream of the child is bound to. *)
Inductive Binding := Inherited | BoundTo (path : string).

Record Fds := mkFds { fd_stdin : Binding; fd_stdout : Binding }.

Inductive OpenFlags := O_RDONLY | O_WRONLY_CREAT_TRUNC.
Inductive Stream := STDIN_FILENO | STDOUT_FILENO.

(** What the child asks of the operating system before and at [execvp]. *)
Record ChildOS := mkChildOS {
  os_open : string -> OpenFlags -> bool;   (* open(path, flags) <> -1 *)
  os_dup2 : string -> Stream -> bool;      (* dup2(fd of path, stream) <> -1 *)
  os_execvp : string -> bool               (* execvp(file, ..) loads the image *)
}.

(** A step of the child: it goes on, or calls [exit(code)] after writing
    [msg] to standard error. *)
Inductive ChildStep (A : Type) :=
| Go (a : A)
| Exit (code : Z) (msg : string).
Arguments Go {A} a.
Arguments Exit {A} code msg.

Definition dev_null : string := "/dev/null".

Definition redirect (cos : ChildOS) (path : string) (flags : OpenFlags)
    (stream : Stream) (failure : string) (fds : Fds) : ChildStep Fds :=
  if os_open cos path flags then
    if os_dup2 cos path stream then
      Go (match stream with
          | STDIN_FILENO => mkFds (BoundTo path) (fd_stdout fds)
          | STDOUT_FILENO => mkFds (fd_stdin fds) (BoundTo path)
          end)
    else Exit EXIT_FAILURE failure
  else Exit EXIT_FAILURE failure.

Definition inputoutputRedirect (cos : ChildOS) (cmnd : Command) (fds : Fds)
    : ChildStep Fds :=
  let after_input :=
    if inputRedirect cmnd then
      if (String.length (inputFile cmnd) =? 0)%nat then
        redirect cos dev_null O_RDONLY STDIN_FILENO
                 (perror ("smallsh: cannot open /dev/null input." ++ nl)) fds
      else
        redirect cos (inputFile cmnd) O_RDONLY STDIN_FILENO
                 ("Unable to open input file: " ++ inputFile cmnd ++ "." ++ nl) fds
    else Go fds in
  match after_input with
  | Exit code msg => Exit code msg
  | Go fds =>
      if outputRedirect cmnd then
        if (String.length (outputFile cmnd) =? 0)%nat then
          redirect cos dev_null O_WRONLY_CREAT_TRUNC STDOUT_FILENO
                   (perror ("smallsh: cannot open /dev/null output." ++ nl)) fds
        else
          redirect cos (outputFile cmnd) O_WRONLY_CREAT_TRUNC STDOUT_FILENO
                   ("Unable to open output file: " ++ outputFile cmnd ++ "." ++ nl) fds
      else Go fds
  end.

(** The process image the child becomes. *)
Record Image := mkImage {
  img_file : string;                (* first argument of execvp *)
  img_argv : list string;           (* the vector up to its NULL *)
  img_fds : Fds;
  img_sigint_default : bool         (* sigintDefault() was called *)
}.

Inductive ChildOutcome :=
| Exec (img : Image)
| ChildExit (code : Z) (msg : string).

(** [case(0)] of [routeCommand]: the child's copy of [allowBackground] is
    the value at the fork; [file] is [cmnd->args[0]]. *)
Definition child (cos : ChildOS) (allow_background : bool) (file : string)
    (cmnd : Command) : ChildOutcome :=
  let background := backgroundProcess cmnd && allow_background in
  let cmnd :=
    if background then
      let cmnd := if negb (inputRedirect cmnd) then set_inputRedirect true cmnd else cmnd in
      if negb (outputRedirect cmnd) then set_outputRedirect true cmnd else cmnd
    else cmnd in
  match inputoutputRedirect cos cmnd (mkFds Inherited Inherited) with
  | Exit code msg => ChildExit code msg
  | Go fds =>
      if os_execvp cos file then
        Exec (mkImage file (argv (args cmnd)) fds (negb background))
      else ChildExit EXIT_FAILURE (file ++ ": no such file or directory." ++ nl)
  end.

(** ** routeCommand *)

(** [strcmp(p, ..)] reads through [p]. *)
Definition deref (p : option string) : res string :=
  match p with
  | Some s => Ok s
  | None => Undef NullDeref
  end.

(** What the forked child does, [None] when the command is a builtin and no
    child is forked. *)
Definition routeCommand_child (cos : ChildOS) (allow_background : bool)
    (cmnd : Command) : res (option ChildOutcome) :=
  a0 ← arr_get (args cmnd) 0;
  name ← deref a0;
  if String.eqb name "cd" then Ok None
  else if String.eqb name "status" then Ok None
  else if String.eqb name "exit" then Ok None
  else Ok (Some (child cos allow_background name cmnd)).

Inductive Routed :=
| Continue (s : Shell)                 (* routeCommand returned *)
| ProcessExit (code : Z) (s : Shell).  (* the interpreter called exit(code) *)

Definition deferred_exiting : string := nl ++ "Exiting foreground-only mode." ++ nl.
Definition deferred_entering : string :=
  nl ++ "Entering foreground-only mode (& will be ignored)." ++ nl.

(** What follows [waitpid(childPid, exitStatus, 0)] in the parent. *)
Definition after_foreground_wait (s : Shell) : Shell :=
  let s :=
    if WIFSIGNALED (exitStatus s) then
      print ("terminated by signal " ++ fmt_d (WTERMSIG (exitStatus s)) ++ nl) s
    else s in
  if sigtstpTriggered s then
    set_sigtstpTriggered false
      (print (if allowBackground s then deferred_exiting else deferred_entering) s)
  else s.

(** The interpreter's side of [routeCommand].  The SIGTSTP deliveries of
    [os_tstp] arrive while the command is active: inside [waitpid] for a
    foreground child, and just before [processActive] is cleared on the
    paths that do not block. *)
Definition routeCommand (os : OS) (cmnd : Command) (s : Shell) : res Routed :=
  let s := set_processActive true s in
  a0 ← arr_get (args cmnd) 0;
  name ← deref a0;
  if String.eqb name "cd" then
    a1 ← arr_get (args cmnd) 1;
    let s := cd os a1 s in
    Ok (Continue (set_processActive false (deliveries (os_tstp os) s)))
  else if String.eqb name "status" then
    let s := reportStatus (exitStatus s) s in
    Ok (Continue (set_processActive false (deliveries (os_tstp os) s)))
  else if String.eqb name "exit" then
    Ok (ProcessExit 0 (burnEverything s))
  else
    match os_fork os with
    | None => Ok (ProcessExit 1 (eprint (perror ("Hull Breach!" ++ nl)) s))
    | Some childPid =>
        if backgroundProcess cmnd && allowBackground s then
          let s := print ("background pid is " ++ fmt_d childPid ++ nl) s in
          Ok (Continue (set_processActive false (deliveries (os_tstp os) s)))
        else
          let s := deliveries (os_tstp os) s in
          let s := set_exitStatus (os_wait os) s in
          let s := after_foreground_wait s in
          Ok (Continue (set_processActive false s))
    end.

(** One iteration of [shell]'s loop once [getCommand] has returned [raw]:
    [burnZombie], [parseCommand], [routeCommand]. *)
Definition shell_cycle (shell_pid : Z) (waits : list (Z * Z)) (raw : string)
    (os : OS) (s : Shell) : res Routed :=
  let s := burnZombie waits s in
  cmnd ← parseCommand shell_pid (fresh raw);
  routeCommand os cmnd s.

(** ** Invariants of the parser *)

(** The [args] array holds exactly the tokens [toks] in its first slots,
    [numArgs] counts them, and every later slot still is the NULL of
    [calloc]. *)
Definition args_filled (c : Command) (toks : list string) : Prop :=
  args c = ((Some <$> toks) ++ replicate (MAX_ARGS - length toks) None)%list
  /\ numArgs c = Z.of_nat (length toks)
  /\ (length toks <= MAX_ARGS)%nat.

(** A target buffer is written only together with its flag. *)
Definition targets_flagged (c : Command) : Prop :=
  (inputRedirect c = false -> inputFile c = "")
  /\ (outputRedirect c = false -> outputFile c = "").

(** ** Invariant of the signal-mode controller *)

(** The handlers re-register each other, so the installed handler is the one
    that leaves the current mode. *)
Definition handler_matches (s : Shell) : Prop :=
  tstpHandler s = if allowBackground s then H_foregroundonly else H_allowbackground.

(** ** Sample environments *)

(** A child-side operating system on which every call succeeds. *)
Definition cooperative_child_os : ChildOS :=
  mkChildOS (fun _ _ => true) (fun _ _ => true) (fun _ => true).

(** An interpreter-side operating system: no HOME, every [chdir] fails,
    [fork] returns pid 100, the child's wait status is [status], and [tstp]
    SIGTSTP signals arrive while the command runs. *)
Definition sample_os (status : Z) (tstp : nat) : OS :=
  mkOS None (fun _ _ => None) (Some 100%Z) status tstp.

(** ** The foreground path of routeCommand *)

(** The conditions under which [routeCommand] reaches its foreground
    [waitpid]: the first argument is none of the builtins, the fork succeeds,
    and the command is not run in the background. *)
Definition runs_foreground (os : OS) (cmnd : Command) (s : Shell) : Prop :=
  exists file childPid,
    arr_get (args cmnd) 0 = Ok (Some file)
    /\ String.eqb file "cd" = false
    /\ String.eqb file "status" = false
    /\ String.eqb file "exit" = false
    /\ os_fork os = Some childPid
    /\ backgroundProcess cmnd && allowBackground s = false.

(** What the foreground path prints right after [waitpid] when the child was
    killed by a signal. *)
Definition signal_report (status : Z) : list string :=
  if WIFSIGNALED status
  then ["terminated by signal " ++ fmt_d (WTERMSIG status) ++ nl]
  else [].

(** ** The interpreter's loop *)

(** What one iteration of [shell]'s loop meets: the children its sweep reaps,
    the SIGTSTP deliveries while it sits at the prompt, and the operating
    system while it routes the command. *)
Record CycleEnv := mkCycleEnv {
  cy_waits : list (Z * Z);
  cy_idle_tstp : nat;
  cy_os : OS
}.

Inductive ShellRun :=
| Looping (s : Shell) (stdin : list (option string))  (* the given iterations are done *)
| Reading (s : Shell)                                 (* getCommand has not returned *)
| Terminated (code : Z) (s : Shell)                   (* exit(code) *)
| Faulted (f : Fault) (s : Shell).                    (* undefined behaviour *)

(** The [": "] that [getCommand] wrote, once per iteration of its loop. *)
Fixpoint prompted (n : nat) (s : Shell) : Shell :=
  match n with
  | O => s
  | S n' => prompted n' (print ": " s)
  end.

(** [while(1)] of [shell], one [CycleEnv] per iteration: [burnZombie],
    [getCommand] on a fresh struct (at most [reads] reads), [parseCommand],
    [routeCommand].  The deliveries at the prompt are taken after the prompts
    are written, while [getline] blocks. *)
Fixpoint shell_loop (shell_pid : Z) (reads : nat) (envs : list CycleEnv)
    (stdin : list (option string)) (s : Shell) : ShellRun :=
  match envs with
  | [] => Looping s stdin
  | e :: envs' =>
      let s := burnZombie (cy_waits e) s in
      match getCommand reads stdin calloc_Command 0 with
      | Returned cmnd stdin' prompts =>
          let s := deliveries (cy_idle_tstp e) (prompted prompts s) in
          match cmnd ← parseCommand shell_pid cmnd; routeCommand (cy_os e) cmnd s with
          | Ok (Continue s') => shell_loop shell_pid reads envs' stdin' s'
          | Ok (ProcessExit code s') => Terminated code s'
          | Undef f => Faulted f s
          | Timeout => Reading s
          end
      | StillReading prompts => Reading (deliveries (cy_idle_tstp e) (prompted prompts s))
      | ReaderExit code => Terminated code s
      | ReaderUndef f => Faulted f s
      end
  end.

(** ** Words and lines, for the statements about the tokenizer *)

(** A token that the tokenizing loop stores as an argument: not empty, free
    of spaces, and neither redirection operator. *)
Definition plain_word (t : string) : bool :=
  negb (String.eqb t "") && (count_char " " t =? 0)%nat
  && negb (String.eqb t "<") && negb (String.eqb t ">").

(** The words of a command line, separated by single spaces. *)
Fixpoint join_sp (ws : list string) : string :=
  match ws with
  | [] => ""
  | w :: ws' => match ws' with [] => w | _ => w ++ " " ++ join_sp ws' end
  end.

(** The chunks [reportStatus] writes for a status. *)
Definition status_chunks (status : Z) : list string :=
  if WIFEXITED status then ["exit value " ++ fmt_d (WEXITSTATUS status) ++ nl]
  else if WIFSIGNALED status
       then ["terminated by signal " ++ fmt_d (WTERMSIG status) ++ nl]
       else [].

(** The two chunks the sweep writes for one reaped child. *)
Definition zombie_report (w : Z * Z) : list string :=
  ("background pid " ++ fmt_d (fst w) ++ " is done: ") :: status_chunks (snd w).

(** The notice a handler writes at once, by the mode it leaves. *)
Definition immediate_notice (allow_background : bool) : string :=
  if allow_background then bgOff else bgOn.

(** The notices of [n] deliveries at the prompt, starting in the given mode. *)
Fixpoint idle_notices (n : nat) (allow_background : bool) : list string :=
  match n with
  | O => []
  | S n' => immediate_notice allow_background :: idle_notices n' (negb allow_background)
  end.

(** A token as [strtok] returns it: not empty and free of spaces. *)
Definition is_token (t : string) : bool :=
  negb (String.eqb t "") && (count_char " " t =? 0)%nat.

(** The [args] array that holds exactly the tokens [l], NULL after them. *)
Definition filled (l : list string) : list (option string) :=
  ((Some <$> l) ++ replicate (MAX_ARGS - length l) None)%list.


(** * Properties *)

(** ** Strings *)

Section StringFacts.

Lemma string_ind2 (P : string -> Prop) :
  P "" ->
  (forall c, P (String c "")) ->
  (forall c d s, P s -> P (String d s) -> P (String c (String d s))) ->
  forall s, P s.
Proof.
  intros H0 H1 H2 s.
  assert (P s /\ forall c, P (String c s)) as [H _]; [|exact H].
  induction s as [|d s [IHs IHc]]; split; auto.
Qed.

Lemma string_length_app (a b : string) :
  String.length (a ++ b) = String.length a + String.length b.
Proof. induction a as [|c a IH]; simpl; [reflexivity | now rewrite IH]. Qed.

Lemma count_char_app (c : ascii) (a b : string) :
  count_char c (a ++ b) = count_char c a + count_char c b.
Proof. induction a as [|d a IH]; simpl; [reflexivity | rewrite IH; lia]. Qed.

Lemma count_char_le_length (c : ascii) (s : string) :
  count_char c s <= String.length s.
Proof. induction s as [|d s IH]; simpl; [lia | destruct (Ascii.eqb d c); lia]. Qed.

Lemma prefix_char (c d : ascii) (p s : string) :
  String.prefix (String c p) (String d s) = Ascii.eqb d c && String.prefix p s.
Proof.
  cbn [String.prefix]. destruct (ascii_dec c d) as [->|Hn].
  - now rewrite Ascii.eqb_refl.
  - destruct (Ascii.eqb_spec d c) as [->|_]; [congruence | reflexivity].
Qed.

Lemma prefix_empty (s : string) : String.prefix "" s = true.
Proof. now destruct s. Qed.

(** [strstr] for the two-character marker, one character at a time. *)
Lemma strstr_marker_cons (c : ascii) (s : string) :
  strstr (String c s) "$$" =
  if Ascii.eqb c "$"%char then
    match s with
    | String d _ =>
        if Ascii.eqb d "$"%char then Some 0 else option_map S (strstr s "$$")
    | "" => option_map S (strstr s "$$")
    end
  else option_map S (strstr s "$$").
Proof.
  cbn [strstr]. rewrite prefix_char.
  destruct (Ascii.eqb c "$"%char); [|reflexivity].
  destruct s as [|d s']; [reflexivity|].
  rewrite prefix_char, prefix_empty.
  now destruct (Ascii.eqb d "$"%char).
Qed.

Lemma strstr_marker_nil : strstr "" "$$" = None.
Proof. reflexivity. Qed.

(** No character of a printed integer is the dollar sign. *)
Lemma uint_no_dollar (d : Decimal.uint) :
  count_char "$" (NilEmpty.string_of_uint d) = 0.
Proof. induction d; simpl; auto. Qed.

Lemma fmt_d_no_dollar (z : Z) : count_char "$" (fmt_d z) = 0.
Proof.
  unfold fmt_d, NilZero.string_of_int, NilZero.string_of_uint.
  destruct (Z.to_int z) as [d|d]; destruct d; simpl;
    try reflexivity; apply uint_no_dollar.
Qed.

End StringFacts.

(** ** The marker expansion *)

Section Expansion.

Variable digits : string.
Hypothesis digits_clean : count_char "$" digits = 0.


Lemma replace_markers_other (c : ascii) (s : string) :
  Ascii.eqb c "$"%char = false ->
  replace_markers digits (String c s) = String c (replace_markers digits s).
Proof. intros H. cbn [replace_markers]. now rewrite H. Qed.

Lemma replace_markers_lone (d : ascii) (s : string) :
  Ascii.eqb d "$"%char = false ->
  replace_markers digits (String "$" (String d s))
  = String "$" (replace_markers digits (String d s)).
Proof. intros H. cbn [replace_markers Ascii.eqb Bool.eqb]. now rewrite H. Qed.

Lemma replace_markers_marker (s : string) :
  replace_markers digits (String "$" (String "$" s))
  = digits ++ replace_markers digits s.
Proof. reflexivity. Qed.

Lemma replace_markers_clean_prefix (p s : string) :
  count_char "$" p = 0 ->
  replace_markers digits (p ++ s) = p ++ replace_markers digits s.
Proof.
  induction p as [|c p IH]; intros Hp; [reflexivity|].
  simpl in Hp. destruct (Ascii.eqb c "$"%char) eqn:Hc; [discriminate|].
  change (String c p ++ s) with (String c (p ++ s)).
  rewrite replace_markers_other, IH by assumption. reflexivity.
Qed.

Lemma strstr_none_replace (s : string) :
  strstr s "$$" = None -> replace_markers digits s = s.
Proof.
  induction s as [|c|c d s IHs IHd] using string_ind2; intros H.
  - reflexivity.
  - cbn. now destruct (Ascii.eqb c "$"%char).
  - rewrite strstr_marker_cons in H.
    destruct (Ascii.eqb_spec c "$"%char) as [->|Hc];
      [destruct (Ascii.eqb_spec d "$"%char) as [->|Hd]|].
    + discriminate.
    + destruct (strstr (String d s) "$$") eqn:E; [discriminate|].
      rewrite replace_markers_lone by now apply Ascii.eqb_neq.
      now rewrite IHd.
    + destruct (strstr (String d s) "$$") eqn:E; [discriminate|].
      rewrite replace_markers_other by now apply Ascii.eqb_neq.
      now rewrite IHd.
Qed.

(** The line splits around the occurrence [strstr] finds. *)
Lemma strstr_split (raw : string) (i : nat) :
  strstr raw "$$" = Some i ->
  raw = stake i raw ++ "$$" ++ sdrop (i + 2) raw.
Proof.
  revert i. induction raw as [|c|c d s IHs IHd] using string_ind2; intros i H.
  - discriminate.
  - rewrite strstr_marker_cons in H. cbn in H. now destruct (Ascii.eqb c "$"%char).
  - rewrite strstr_marker_cons in H.
    destruct (Ascii.eqb_spec c "$"%char) as [->|Hc];
      [destruct (Ascii.eqb_spec d "$"%char) as [->|Hd]|].
    + now injection H as <-.
    + destruct (strstr (String d s) "$$") as [j|] eqn:E; [|discriminate].
      injection H as <-. cbn [stake sdrop Nat.add append]. f_equal. now apply IHd.
    + destruct (strstr (String d s) "$$") as [j|] eqn:E; [|discriminate].
      injection H as <-. cbn [stake sdrop Nat.add append]. f_equal. now apply IHd.
Qed.

(** One iteration of the loop keeps what the scan computes. *)
Lemma expand_step_replace (raw : string) (i : nat) :
  strstr raw "$$" = Some i ->
  replace_markers digits (stake i raw ++ digits ++ sdrop (i + 2) raw)
  = replace_markers digits raw.
Proof.
  revert i. induction raw as [|c|c d s IHs IHd] using string_ind2; intros i H.
  - discriminate.
  - rewrite strstr_marker_cons in H. cbn in H. now destruct (Ascii.eqb c "$"%char).
  - rewrite strstr_marker_cons in H.
    destruct (Ascii.eqb_spec c "$"%char) as [->|Hc];
      [destruct (Ascii.eqb_spec d "$"%char) as [->|Hd]|].
    + injection H as <-. cbn [stake sdrop Nat.add append].
      now rewrite replace_markers_clean_prefix, replace_markers_marker.
    + destruct (strstr (String d s) "$$") as [j|] eqn:E; [|discriminate].
      injection H as <-. specialize (IHd j eq_refl).
      apply Ascii.eqb_neq in Hd.
      destruct j as [|j].
      { rewrite strstr_marker_cons, Hd in E.
        destruct (strstr s "$$"); discriminate. }
      cbn [stake sdrop Nat.add append] in *.
      rewrite !replace_markers_lone by assumption. now f_equal.
    + destruct (strstr (String d s) "$$") as [j|] eqn:E; [|discriminate].
      injection H as <-. specialize (IHd j eq_refl).
      apply Ascii.eqb_neq in Hc.
      cbn [stake sdrop Nat.add append].
      rewrite !replace_markers_other by assumption. now f_equal.
Qed.

(** Each iteration removes the marker and adds the digits, for any
    additive measure of strings. *)
Lemma expand_step_measure (f : string -> nat) (raw : string) (i : nat) :
  (forall a b, f (a ++ b) = f a + f b) ->
  strstr raw "$$" = Some i ->
  f (stake i raw ++ digits ++ sdrop (i + 2) raw) + f "$$" = f raw + f digits.
Proof.
  intros Hf H. pose proof (strstr_split raw i H) as Hsplit.
  rewrite Hsplit at 3. rewrite !Hf. lia.
Qed.

Lemma replace_markers_length (s : string) :
  String.length (replace_markers digits s) + 2 * count_markers s
  = String.length s + count_markers s * String.length digits.
Proof.
  induction s as [|c|c d s IHs IHd] using string_ind2.
  - reflexivity.
  - cbn. destruct (Ascii.eqb c "$"%char); cbn; lia.
  - destruct (Ascii.eqb_spec c "$"%char) as [->|Hc];
      [destruct (Ascii.eqb_spec d "$"%char) as [->|Hd]|].
    + rewrite replace_markers_marker, string_length_app.
      change (count_markers (String "$" (String "$" s))) with (S (count_markers s)).
      cbn [String.length]. lia.
    + apply Ascii.eqb_neq in Hd. rewrite replace_markers_lone by assumption.
      assert (count_markers (String "$" (String d s)) = count_markers (String d s)) as ->.
      { cbn [count_markers Ascii.eqb Bool.eqb]. now rewrite Hd. }
      cbn [String.length] in IHd |- *. lia.
    + apply Ascii.eqb_neq in Hc. rewrite replace_markers_other by assumption.
      assert (count_markers (String c (String d s)) = count_markers (String d s)) as ->.
      { cbn [count_markers]. now rewrite Hc. }
      cbn [String.length] in IHd |- *. lia.
Qed.

(** The loop, for a line that fits the buffer before and after. *)
Lemma expand_loop_correct (fuel : nat) (raw : string) :
  count_char "$" raw <= 2 * fuel + 1 ->
  String.length raw < MAX_INPUT ->
  String.length (replace_markers digits raw) < MAX_INPUT ->
  expand_loop fuel digits raw = Ok (replace_markers digits raw).
Proof.
  revert raw. induction fuel as [|fuel IH]; intros raw Hcount Hraw Hout.
  - cbn [expand_loop]. destruct (strstr raw "$$") as [i|] eqn:E.
    + pose proof (expand_step_measure (count_char "$") raw i (count_char_app _) E) as M.
      cbn in M. lia.
    + now rewrite strstr_none_replace.
  - cbn [expand_loop]. destruct (strstr raw "$$") as [i|] eqn:E.
    + pose proof (expand_step_measure (count_char "$") raw i (count_char_app _) E) as M.
      pose proof (expand_step_measure String.length raw i string_length_app E) as L.
      pose proof (expand_step_replace raw i E) as R.
      pose proof (replace_markers_length (stake i raw ++ digits ++ sdrop (i + 2) raw)) as N.
      cbn [count_char String.length Ascii.eqb Bool.eqb] in M, L.
      unfold expand_at.
      assert (String.length (stake i raw ++ digits ++ sdrop (i + 2) raw) < MAX_INPUT) as Hfit.
      { rewrite <- R in Hout.
        destruct (le_lt_dec (String.length digits) 2); [lia | nia]. }
      apply Nat.ltb_lt in Hfit as Hfit'. rewrite Hfit'. cbn.
      rewrite <- R. apply IH; [lia | exact Hfit | now rewrite R].
    + now rewrite strstr_none_replace.
Qed.

(** The loop stops only when no marker remains. *)
Lemma expand_loop_no_marker (fuel : nat) (raw r : string) :
  expand_loop fuel digits raw = Ok r -> strstr r "$$" = None.
Proof.
  revert raw. induction fuel as [|fuel IH]; intros raw; cbn [expand_loop];
    destruct (strstr raw "$$") as [i|] eqn:E; try discriminate;
    try (intros [= <-]; exact E).
  unfold expand_at.
  destruct (String.length _ <? MAX_INPUT)%nat; cbn; [apply IH | discriminate].
Qed.

(** The fuel of [expandPid] is never exhausted. *)
Lemma expand_loop_total (fuel : nat) (raw : string) :
  count_char "$" raw <= 2 * fuel + 1 ->
  expand_loop fuel digits raw <> Timeout.
Proof.
  revert raw. induction fuel as [|fuel IH]; intros raw Hcount; cbn [expand_loop];
    destruct (strstr raw "$$") as [i|] eqn:E; try discriminate;
    pose proof (expand_step_measure (count_char "$") raw i (count_char_app _) E) as M;
    cbn [count_char String.length Ascii.eqb Bool.eqb] in M; [lia|].
  unfold expand_at.
  destruct (String.length _ <? MAX_INPUT)%nat; cbn; [apply IH; lia | discriminate].
Qed.

End Expansion.

Lemma expandPid_total (shell_pid : Z) (raw : string) :
  expandPid shell_pid raw <> Timeout.
Proof.
  apply expand_loop_total; [apply fmt_d_no_dollar|].
  pose proof (count_char_le_length "$" raw). lia.
Qed.

(** C3: for a line that fits the [MAX_INPUT] buffer before and after the
    expansion, the [$$] loop of [parseCommand] returns the line in which the
    left-to-right scan has replaced each of the [count_markers raw] markers by
    the decimal process id and copied every other character; no marker
    remains, and the length changes by exactly the replaced markers. *)
Theorem expandPid_replaces_every_marker (shell_pid : Z) (raw : string) :
  String.length raw < MAX_INPUT ->
  String.length (replace_markers (fmt_d shell_pid) raw) < MAX_INPUT ->
  expandPid shell_pid raw = Ok (replace_markers (fmt_d shell_pid) raw)
  /\ strstr (replace_markers (fmt_d shell_pid) raw) "$$" = None
  /\ String.length (replace_markers (fmt_d shell_pid) raw) + 2 * count_markers raw
     = String.length raw + count_markers raw * String.length (fmt_d shell_pid).
Proof.
  intros Hraw Hout.
  assert (expandPid shell_pid raw = Ok (replace_markers (fmt_d shell_pid) raw)) as E.
  { apply expand_loop_correct; [apply fmt_d_no_dollar | | exact Hraw | exact Hout].
    pose proof (count_char_le_length "$" raw). lia. }
  split; [exact E|]. split.
  - exact (expand_loop_no_marker _ _ _ _ E).
  - apply replace_markers_length, fmt_d_no_dollar.
Qed.

Lemma expandPid_replaces_every_marker_witness :
  expandPid 4242 "echo $$ a$$$$b $$$" = Ok "echo 4242 a42424242b 4242$"
  /\ strstr "echo 4242 a42424242b 4242$" "$$" = None
  /\ 26 + 2 * 4 = 18 + 4 * 4.
Proof.
  apply (expandPid_replaces_every_marker 4242 "echo $$ a$$$$b $$$");
    apply Nat.ltb_lt; vm_compute; reflexivity.
Defined.

(** ** The tokenizing loop *)

Section TokenLoop.

#[local] Arguments MAX_ARGS : simpl never.

Lemma argv_filled (toks : list string) (k : nat) :
  argv ((Some <$> toks) ++ replicate k None)%list = toks.
Proof.
  induction toks as [|t toks IH]; cbn.
  - now destruct k.
  - f_equal. apply IH.
Qed.

Lemma lookup_filled (toks : list string) (y : option string) (rest : list (option string)) :
  ((Some <$> toks) ++ y :: rest)%list !! length toks = Some y.
Proof. induction toks as [|t toks IH]; cbn; auto. Qed.

Lemma insert_filled (toks : list string) (x y : option string) (rest : list (option string)) :
  <[length toks := x]> ((Some <$> toks) ++ y :: rest)%list
  = ((Some <$> toks) ++ x :: rest)%list.
Proof. induction toks as [|t toks IH]; cbn; [reflexivity | f_equal; apply IH]. Qed.

Lemma args_filled_length (c : Command) (toks : list string) :
  args_filled c toks -> length (args c) = MAX_ARGS.
Proof.
  intros (-> & _ & Hle).
  rewrite length_app, length_fmap, length_replicate. lia.
Qed.

Lemma args_filled_fresh (raw : string) : args_filled (fresh raw) [].
Proof. repeat split; cbn; unfold MAX_ARGS; lia. Qed.

(** Storing one more token: [cmnd->args[cmnd->numArgs++] = token]. *)
Lemma args_filled_push (c : Command) (toks : list string) (t : string)
    (a : list (option string)) :
  args_filled c toks ->
  arr_set (args c) (numArgs c) (Some t) = Ok a ->
  args_filled (set_numArgs (numArgs c + 1) (set_args a c)) (toks ++ [t]).
Proof.
  intros F H. pose proof (args_filled_length _ _ F) as Hlen.
  destruct F as (Ha & Hn & Hle).
  unfold arr_set in H. rewrite Hn, Hlen, Nat2Z.id in H.
  destruct (0 <=? Z.of_nat (length toks))%Z; cbn in H; [|discriminate].
  destruct (Z.ltb_spec (Z.of_nat (length toks)) (Z.of_nat MAX_ARGS)); [|discriminate].
  injection H as <-.
  assert (length (toks ++ [t]) = S (length toks)) as El
    by (rewrite length_app; simpl length; lia).
  assert (MAX_ARGS - length toks = S (MAX_ARGS - length (toks ++ [t]))) as E by lia.
  split; [|split]; cbn [args numArgs set_numArgs set_args].
  - rewrite Ha, E, replicate_S, insert_filled, fmap_app.
    now rewrite <- app_assoc.
  - lia.
  - lia.
Qed.

(** Whatever the three branches of the loop body keep, the loop keeps. *)
Lemma tokenLoop_invariant (P : Command -> Prop) :
  (forall c f, P c -> P (set_inputFile f (set_inputRedirect true c))) ->
  (forall c f, P c -> P (set_outputFile f (set_outputRedirect true c))) ->
  (forall c a t, P c -> arr_set (args c) (numArgs c) (Some t) = Ok a ->
                 P (set_numArgs (numArgs c + 1) (set_args a c))) ->
  forall toks c c', P c -> tokenLoop toks c = Ok c' -> P c'.
Proof.
  intros Hin Hout Harg toks.
  assert (forall n toks, length toks <= n ->
          forall c c', P c -> tokenLoop toks c = Ok c' -> P c') as Hn.
  { clear toks. induction n as [|n IH]; intros toks Hlen c c' Hc H.
    - destruct toks; [|cbn in Hlen; lia]. now injection H as <-.
    - destruct toks as [|t rest]; [now injection H as <-|].
      cbn [tokenLoop] in H. cbn in Hlen.
      destruct (String.eqb t "<"); [|destruct (String.eqb t ">")].
      + destruct rest as [|target rest']; [discriminate|].
        destruct (strcpy_into FILE_NAME_MAX (Some target)) as [f| |]; try discriminate.
        cbn in H, Hlen. eapply (IH rest'); [lia | | exact H]. now apply Hin.
      + destruct rest as [|target rest']; [discriminate|].
        destruct (strcpy_into FILE_NAME_MAX (Some target)) as [f| |]; try discriminate.
        cbn in H, Hlen. eapply (IH rest'); [lia | | exact H]. now apply Hout.
      + destruct (arr_set (args c) (numArgs c) (Some t)) as [a| |] eqn:E; try discriminate.
        cbn in H. eapply (IH rest); [lia | | exact H]. exact (Harg c a t Hc E). }
  intros c c'. now apply (Hn (length toks) toks).
Qed.

Lemma tokenLoop_args_filled (toks : list string) (c c' : Command) :
  (exists stored, args_filled c stored) ->
  tokenLoop toks c = Ok c' ->
  exists stored, args_filled c' stored.
Proof.
  apply (tokenLoop_invariant (fun c => exists stored, args_filled c stored)).
  - intros ? ? [stored F]. now exists stored.
  - intros ? ? [stored F]. now exists stored.
  - intros ? a t [stored F] E. exists (stored ++ [t])%list.
    now apply args_filled_push.
Qed.

Lemma tokenLoop_background (toks : list string) (c c' : Command) :
  backgroundProcess c = false ->
  tokenLoop toks c = Ok c' ->
  backgroundProcess c' = false.
Proof.
  apply (tokenLoop_invariant (fun c => backgroundProcess c = false)); auto.
Qed.

Lemma tokenLoop_targets_flagged (toks : list string) (c c' : Command) :
  targets_flagged c -> tokenLoop toks c = Ok c' -> targets_flagged c'.
Proof.
  apply (tokenLoop_invariant targets_flagged); unfold targets_flagged; cbn.
  - intros ? ? [_ H]. split; [discriminate | exact H].
  - intros ? ? [H _]. split; [exact H | discriminate].
  - intros ? ? ? H _. exact H.
Qed.

(** The struct between the loop and the background check. *)
Lemma tokenize_facts (shell_pid : Z) (raw : string) (c1 : Command) :
  tokenize shell_pid (fresh raw) = Ok c1 ->
  (exists stored, args_filled c1 stored)
  /\ backgroundProcess c1 = false
  /\ targets_flagged c1.
Proof.
  unfold tokenize. destruct (expandPid shell_pid _) as [r| |]; try discriminate.
  cbn. intros H. split; [|split].
  - eapply tokenLoop_args_filled; [|exact H]. exists []. apply (args_filled_fresh r).
  - eapply tokenLoop_background; [|exact H]. reflexivity.
  - eapply tokenLoop_targets_flagged; [|exact H]. now split.
Qed.

(** The background check on a struct whose last stored token is [t]. *)
Lemma backgroundCheck_last (c : Command) (stored : list string) (t : string) :
  args_filled c (stored ++ [t]) ->
  backgroundCheck c =
  if String.eqb t "&" then
    Ok (set_args ((Some <$> stored) ++ replicate (MAX_ARGS - length stored) None)%list
                 (set_backgroundProcess true c))
  else if (numArgs c <? Z.of_nat MAX_ARGS)%Z then Ok (set_args (args c) c)
  else Undef OutOfBounds.
Proof.
  intros F. pose proof (args_filled_length _ _ F) as Hlen.
  destruct F as (Ha & Hn & Hle). rewrite length_app in Hn, Hle, Ha. cbn in Hn, Hle, Ha.
  unfold backgroundCheck.
  assert (arr_get (args c) (numArgs c - 1) = Ok (Some t)) as ->.
  { unfold arr_get. rewrite Hn.
    destruct (Z.ltb_spec (Z.of_nat (length stored + 1) - 1) 0); [lia|].
    replace (Z.to_nat (Z.of_nat (length stored + 1) - 1)) with (length stored) by lia.
    rewrite Ha, fmap_app, <- app_assoc. cbn. now rewrite lookup_filled. }
  cbn. destruct (String.eqb t "&").
  - unfold arr_set. rewrite Hn, Hlen.
    destruct (Z.leb_spec 0 (Z.of_nat (length stored + 1) - 1)); [|lia].
    destruct (Z.ltb_spec (Z.of_nat (length stored + 1) - 1) (Z.of_nat MAX_ARGS)); [|lia].
    cbn. do 2 f_equal.
    replace (Z.to_nat (Z.of_nat (length stored + 1) - 1)) with (length stored) by lia.
    rewrite Ha, fmap_app, <- app_assoc. cbn. rewrite insert_filled.
    replace (MAX_ARGS - length stored) with (S (MAX_ARGS - (length stored + 1))) by lia.
    reflexivity.
  - unfold arr_set. rewrite Hlen, Hn.
    destruct (Z.leb_spec 0 (Z.of_nat (length stored + 1))); [|lia].
    destruct (Z.ltb_spec (Z.of_nat (length stored + 1)) (Z.of_nat MAX_ARGS)); [|reflexivity].
    cbn. do 2 f_equal. apply list_insert_id.
    rewrite Ha, Nat2Z.id.
    replace (MAX_ARGS - (length stored + 1)) with (S (MAX_ARGS - (length stored + 2))) by lia.
    rewrite replicate_S.
    replace (length stored + 1) with (length (stored ++ [t])) by (rewrite length_app; cbn; lia).
    apply lookup_filled.
Qed.

End TokenLoop.

(** C4: after the tokenizing loop has stored the argument tokens, if the last
    one is exactly ["&"] the parser drops exactly that element from the
    argument vector and sets [backgroundProcess]; if it is another token (and
    the vector with its terminator fits the [MAX_ARGS] slots) the flag stays
    clear and the argument vector and [numArgs] are unchanged. *)
Theorem parseCommand_background_marker (shell_pid : Z) (raw : string)
    (c1 : Command) (t : string) :
  tokenize shell_pid (fresh raw) = Ok c1 ->
  last (argv (args c1)) = Some t ->
  (t = "&" ->
     exists c2, parseCommand shell_pid (fresh raw) = Ok c2
       /\ argv (args c2) = removelast (argv (args c1))
       /\ backgroundProcess c2 = true)
  /\ (t <> "&" -> (numArgs c1 < Z.of_nat MAX_ARGS)%Z ->
     exists c2, parseCommand shell_pid (fresh raw) = Ok c2
       /\ argv (args c2) = argv (args c1)
       /\ backgroundProcess c2 = false
       /\ numArgs c2 = numArgs c1
       /\ numArgs c2 = Z.of_nat (length (argv (args c2)))).
Proof.
  intros Htok Hlast.
  destruct (tokenize_facts _ _ _ Htok) as ([stored F] & Hbg & _).
  assert (argv (args c1) = stored) as Hargv.
  { destruct F as (-> & _). apply argv_filled. }
  rewrite Hargv in *. apply last_Some in Hlast as [front ->].
  pose proof (backgroundCheck_last c1 front t F) as B.
  unfold parseCommand. rewrite Htok. cbn. rewrite B. split.
  - intros ->. cbn. eexists. split; [reflexivity|]. cbn.
    rewrite argv_filled, removelast_last. auto.
  - intros Hne Hfit. apply String.eqb_neq in Hne. rewrite Hne.
    apply Z.ltb_lt in Hfit. rewrite Hfit.
    eexists. split; [reflexivity|]. cbn. rewrite Hargv.
    destruct F as (_ & Hn & _). auto.
Qed.

Lemma parseCommand_background_marker_witness :
  (exists c2, parseCommand 4242 (fresh "sleep 5 &") = Ok c2
     /\ argv (args c2) = ["sleep"; "5"]
     /\ backgroundProcess c2 = true)
  /\ (exists c2, parseCommand 4242 (fresh "ls -l > out") = Ok c2
     /\ argv (args c2) = ["ls"; "-l"]
     /\ backgroundProcess c2 = false
     /\ numArgs c2 = 2%Z
     /\ numArgs c2 = Z.of_nat (length (argv (args c2)))).
Proof.
  split.
  - let r := eval vm_compute in (tokenize 4242 (fresh "sleep 5 &")) in
    match r with
    | Ok ?c1 =>
        destruct (parseCommand_background_marker 4242 "sleep 5 &" c1 "&") as [H _];
          [vm_compute; reflexivity | vm_compute; reflexivity | exact (H eq_refl)]
    end.
  - let r := eval vm_compute in (tokenize 4242 (fresh "ls -l > out")) in
    match r with
    | Ok ?c1 =>
        destruct (parseCommand_background_marker 4242 "ls -l > out" c1 "-l") as [_ H];
          [vm_compute; reflexivity | vm_compute; reflexivity | exact (H ltac:(discriminate) eq_refl)]
    end.
Defined.

(** ** Lines the parser does not survive *)

(** C5: the background check reads [args[numArgs-1]] without testing
    [numArgs]; when no argument was stored the index is [-1], outside the
    array.  So it is for every struct with [numArgs = 0], and for the line
    made of a redirection operator and its target. *)
Theorem backgroundCheck_empty_arguments_out_of_bounds :
  (forall c, numArgs c = 0%Z -> backgroundCheck c = Undef OutOfBounds)
  /\ (forall shell_pid, tokenize shell_pid (fresh "< in.txt")
        = Ok (set_inputFile "in.txt" (set_inputRedirect true (fresh "<"))))
  /\ (forall shell_pid, parseCommand shell_pid (fresh "< in.txt") = Undef OutOfBounds).
Proof.
  split; [|split].
  - intros c H. unfold backgroundCheck. now rewrite H.
  - reflexivity.
  - reflexivity.
Qed.

(** C6: when [<] or [>] is the last token, [strtok] returns NULL and the
    parser hands it to [strcpy]: parsing does not complete, and no empty
    target is left for the redirection setup. *)
Theorem tokenLoop_operator_without_target :
  (forall c, tokenLoop ["<"] c = Undef NullDeref)
  /\ (forall c, tokenLoop [">"] c = Undef NullDeref)
  /\ (forall shell_pid, parseCommand shell_pid (fresh "cat <") = Undef NullDeref)
  /\ (forall shell_pid, parseCommand shell_pid (fresh "ls >") = Undef NullDeref).
Proof. repeat split. Qed.

(** ** The line reader *)

Lemma getCommand_never_exits (fuel : nat) (stdin : list (option string))
    (cmnd : Command) (prompts : nat) (code : Z) :
  getCommand fuel stdin cmnd prompts <> ReaderExit code.
Proof.
  revert stdin prompts. induction fuel as [|fuel IH]; intros stdin prompts;
    cbn [getCommand]; [discriminate|].
  destruct stdin as [|[line|] rest]; try apply IH.
  destruct (discarded (Some line)); [apply IH|].
  destruct (strcpy_into MAX_INPUT (Some (chop_newline line))); discriminate.
Qed.

(** C7, as the code has it: at end-of-input the reader neither returns nor
    terminates the process; every iteration of its loop discards the failed
    read and prompts again, so after any number [fuel] of iterations it is
    still reading and has written [fuel] more prompts. *)
Theorem getCommand_end_of_input_reprompts :
  forall (fuel : nat) (cmnd : Command) (prompts : nat),
    getCommand fuel [] cmnd prompts = StillReading (prompts + fuel).
Proof.
  induction fuel as [|fuel IH]; intros cmnd prompts; cbn [getCommand].
  - f_equal. lia.
  - rewrite IH. f_equal. lia.
Qed.

(** C7 as stated fails: on the exhausted input stream the reader is still
    prompting after a thousand iterations, and no run of it, on any input,
    terminates the process. *)
Lemma getCommand_end_of_input_no_exit :
  getCommand 1000 [] calloc_Command 0 = StillReading 1000
  /\ (forall fuel code, getCommand fuel [] calloc_Command 0 <> ReaderExit code).
Proof.
  split; [vm_compute; reflexivity|].
  intros fuel code. apply getCommand_never_exits.
Qed.

(** ** The forked child *)

Section Child.

Variable cos : ChildOS.

Lemma redirect_go (path : string) (flags : OpenFlags) (stream : Stream)
    (failure : string) (fds fds' : Fds) :
  redirect cos path flags stream failure fds = Go fds' ->
  fds' = match stream with
         | STDIN_FILENO => mkFds (BoundTo path) (fd_stdout fds)
         | STDOUT_FILENO => mkFds (fd_stdin fds) (BoundTo path)
         end.
Proof.
  unfold redirect. destruct (os_open cos path flags); [|discriminate].
  destruct (os_dup2 cos path stream); [|discriminate]. now intros [= <-].
Qed.

(** What [inputoutputRedirect] binds when it returns. *)
Lemma inputoutputRedirect_go (cmnd : Command) (fds : Fds) :
  inputoutputRedirect cos cmnd (mkFds Inherited Inherited) = Go fds ->
  fd_stdin fds =
    (if inputRedirect cmnd
     then BoundTo (if (String.length (inputFile cmnd) =? 0)%nat then dev_null else inputFile cmnd)
     else Inherited)
  /\ fd_stdout fds =
    (if outputRedirect cmnd
     then BoundTo (if (String.length (outputFile cmnd) =? 0)%nat then dev_null else outputFile cmnd)
     else Inherited).
Proof.
  unfold inputoutputRedirect.
  destruct (inputRedirect cmnd), (outputRedirect cmnd);
    destruct (String.length (inputFile cmnd) =? 0)%nat;
    destruct (String.length (outputFile cmnd) =? 0)%nat;
    repeat match goal with
           | |- context [match redirect ?c ?p ?f ?s ?m ?d with _ => _ end] =>
               let E := fresh "E" in
               destruct (redirect c p f s m d) eqn:E; [apply redirect_go in E; subst|discriminate]
           end;
    intros H; try apply redirect_go in H; try injection H as <-; subst; cbn; auto.
Qed.

End Child.

(** C2: for a parsed command that is not a builtin, carries the background
    marker and is forked while background mode is allowed, whenever the child
    reaches [execvp] and loads the image, each standard stream the line gave no
    redirection for is bound to [/dev/null]; and the child does reach the
    image when the operating system opens and duplicates the null device and
    finds the program. *)
Theorem background_child_streams_null (cos : ChildOS) (shell_pid : Z)
    (raw : string) (cmnd : Command) (s : Shell) (outcome : ChildOutcome) :
  parseCommand shell_pid (fresh raw) = Ok cmnd ->
  backgroundProcess cmnd = true ->
  allowBackground s = true ->
  routeCommand_child cos (allowBackground s) cmnd = Ok (Some outcome) ->
  (forall img, outcome = Exec img ->
     (inputRedirect cmnd = false -> fd_stdin (img_fds img) = BoundTo "/dev/null")
     /\ (outputRedirect cmnd = false -> fd_stdout (img_fds img) = BoundTo "/dev/null"))
  /\ (inputRedirect cmnd = false -> outputRedirect cmnd = false ->
      os_open cos "/dev/null" O_RDONLY = true ->
      os_open cos "/dev/null" O_WRONLY_CREAT_TRUNC = true ->
      os_dup2 cos "/dev/null" STDIN_FILENO = true ->
      os_dup2 cos "/dev/null" STDOUT_FILENO = true ->
      (forall file, os_execvp cos file = true) ->
      exists img, outcome = Exec img).
Proof.
  intros Hparse Hbg Hallow Hchild.
  assert (targets_flagged cmnd) as [Hin Hout].
  { unfold parseCommand in Hparse.
    destruct (tokenize shell_pid (fresh raw)) as [c1| |] eqn:Htok; try discriminate.
    destruct (tokenize_facts _ _ _ Htok) as (_ & _ & T).
    cbn in Hparse. unfold backgroundCheck in Hparse.
    destruct (arr_get (args c1) (numArgs c1 - 1)) as [[t|]| |]; try discriminate.
    cbn in Hparse. destruct (String.eqb t "&").
    - destruct (arr_set (args c1) (numArgs c1 - 1) None); try discriminate.
      injection Hparse as <-. exact T.
    - destruct (arr_set (args c1) (numArgs c1) None); try discriminate.
      injection Hparse as <-. exact T. }
  unfold routeCommand_child in Hchild.
  destruct (arr_get (args cmnd) 0) as [[name|]| |]; try discriminate.
  cbn in Hchild.
  destruct (String.eqb name "cd"); [discriminate|].
  destruct (String.eqb name "status"); [discriminate|].
  destruct (String.eqb name "exit"); [discriminate|].
  injection Hchild as <-.
  unfold child. rewrite Hbg, Hallow. cbn [andb negb].
  match goal with
  | |- context [inputoutputRedirect cos ?c _] =>
      assert (inputRedirect c = true /\ outputRedirect c = true
              /\ inputFile c = inputFile cmnd /\ outputFile c = outputFile cmnd)
        as (Fi & Fo & Ni & No)
        by (destruct (inputRedirect cmnd) eqn:Hi, (outputRedirect cmnd) eqn:Ho;
            cbn; rewrite ?Hi, ?Ho; cbn; rewrite ?Hi, ?Ho; auto);
      generalize dependent c; intros c'
  end.
  intros Fi Fo Ni No. split.
  - intros img Himg.
    destruct (inputoutputRedirect cos c' (mkFds Inherited Inherited)) as [fds|] eqn:E;
      [|discriminate].
    destruct (os_execvp cos name); [|discriminate].
    injection Himg as <-. cbn [img_fds].
    apply inputoutputRedirect_go in E as [Ei Eo].
    rewrite Fi, Ni in Ei. rewrite Fo, No in Eo.
    split; intros Hno.
    + now rewrite Ei, (Hin Hno).
    + now rewrite Eo, (Hout Hno).
  - intros Hi Ho Or Ow Di Do Ex.
    unfold inputoutputRedirect, redirect.
    rewrite Fi, Fo, Ni, No, (Hin Hi), (Hout Ho). cbn.
    unfold dev_null. rewrite Or, Ow, Di, Do, Ex. eauto.
Qed.

Lemma background_child_streams_null_witness :
  exists cmnd img,
    parseCommand 4242 (fresh "sleep 5 &") = Ok cmnd
    /\ routeCommand_child cooperative_child_os true cmnd = Ok (Some (Exec img))
    /\ fd_stdin (img_fds img) = BoundTo "/dev/null"
    /\ fd_stdout (img_fds img) = BoundTo "/dev/null".
Proof.
  let r := eval vm_compute in (parseCommand 4242 (fresh "sleep 5 &")) in
  match r with
  | Ok ?cmnd =>
      let o := eval vm_compute in (routeCommand_child cooperative_child_os true cmnd) in
      match o with
      | Ok (Some (Exec ?img)) =>
          assert (parseCommand 4242 (fresh "sleep 5 &") = Ok cmnd) as Hp
            by (vm_compute; reflexivity);
          assert (routeCommand_child cooperative_child_os
                    (allowBackground (shell_init "/")) cmnd = Ok (Some (Exec img))) as Hc
            by (vm_compute; reflexivity);
          destruct (background_child_streams_null cooperative_child_os 4242 "sleep 5 &"
                      cmnd (shell_init "/") (Exec img) Hp eq_refl eq_refl Hc) as [H _];
          destruct (H img eq_refl) as [Hi Ho];
          exists cmnd, img;
          exact (conj Hp (conj Hc (conj (Hi eq_refl) (Ho eq_refl))))
      end
  end.
Defined.

(** ** Wait statuses *)

Section WaitStatusFacts.
Local Open Scope Z_scope.

Lemma exited_with_decodes (code : Z) :
  0 <= code < 256 ->
  WIFEXITED (exited_with code) = true /\ WEXITSTATUS (exited_with code) = code.
Proof.
  intros H. unfold WIFEXITED, WEXITSTATUS, WTERMSIG, exited_with. split.
  - apply Z.eqb_eq. change 127 with (Z.ones 7).
    rewrite Z.land_ones, Z.shiftl_mul_pow2 by lia.
    change (2 ^ 8) with (2 * 2 ^ 7). rewrite Z.mul_assoc. apply Z.mod_mul. lia.
  - change 65280 with (Z.shiftl (Z.ones 8) 8).
    rewrite <- Z.shiftl_land, Z.land_ones by lia.
    rewrite Z.shiftr_shiftl_l, Z.sub_diag, Z.shiftl_0_r by lia.
    apply Z.mod_small. lia.
Qed.

Lemma killed_by_decodes (sig : Z) (core : bool) :
  1 <= sig < 127 ->
  WIFEXITED (killed_by sig core) = false
  /\ WIFSIGNALED (killed_by sig core) = true
  /\ WTERMSIG (killed_by sig core) = sig.
Proof.
  intros H. unfold WIFEXITED, WIFSIGNALED, WTERMSIG, killed_by.
  assert (Z.land (Z.lor sig (if core then 128 else 0)) 127 = sig) as ->.
  { rewrite Z.land_lor_distr_l.
    assert (Z.land (if core then 128 else 0) 127 = 0) as -> by now destruct core.
    rewrite Z.lor_0_r. change 127 with (Z.ones 7).
    rewrite Z.land_ones by lia. apply Z.mod_small. cbn. lia. }
  split; [apply Z.eqb_neq; lia|]. split; [|reflexivity].
  unfold signed_char. destruct (Z.ltb_spec (sig + 1) 128); [|lia].
  apply Z.ltb_lt. rewrite Z.shiftr_div_pow2 by lia.
  change (2 ^ 1) with 2. apply Z.div_str_pos. lia.
Qed.

End WaitStatusFacts.

(** ** What a command leaves of the interpreter's state *)

Section Frames.

Lemma reportStatus_frame (status : Z) (s : Shell) :
  exitStatus (reportStatus status s) = exitStatus s
  /\ processActive (reportStatus status s) = processActive s
  /\ err (reportStatus status s) = err s.
Proof.
  unfold reportStatus.
  destruct (WIFEXITED status); [|destruct (WIFSIGNALED status)]; auto.
Qed.

Lemma burnZombie_exitStatus (waits : list (Z * Z)) (s : Shell) :
  exitStatus (burnZombie waits s) = exitStatus s.
Proof.
  revert s. induction waits as [|[zPid zStatus] rest IH]; intros s; cbn [burnZombie].
  - reflexivity.
  - destruct (0 <? zPid)%Z; [|reflexivity].
    rewrite IH. now destruct (reportStatus_frame zStatus
      (print ("background pid " ++ fmt_d zPid ++ " is done: ") s)) as [-> _].
Qed.

Lemma deliver_sigtstp_exitStatus (s : Shell) :
  exitStatus (deliver_sigtstp s) = exitStatus s.
Proof.
  unfold deliver_sigtstp, foregroundonly, allowbackground.
  destruct (tstpHandler s); cbn; destruct (processActive s); reflexivity.
Qed.

Lemma deliveries_exitStatus (n : nat) (s : Shell) :
  exitStatus (deliveries n s) = exitStatus s.
Proof.
  revert s. induction n as [|n IH]; intros s; cbn [deliveries]; [reflexivity|].
  now rewrite IH, deliver_sigtstp_exitStatus.
Qed.

(** While a command is active a delivery only flips the mode and raises the
    pending flag. *)
Lemma deliver_sigtstp_active (s : Shell) :
  processActive s = true ->
  processActive (deliver_sigtstp s) = true
  /\ sigtstpTriggered (deliver_sigtstp s) = true
  /\ out (deliver_sigtstp s) = out s
  /\ err (deliver_sigtstp s) = err s
  /\ cwd (deliver_sigtstp s) = cwd s.
Proof.
  intros H. unfold deliver_sigtstp, foregroundonly, allowbackground.
  destruct (tstpHandler s); cbn; rewrite H; cbn; auto.
Qed.

Lemma deliveries_active (n : nat) (s : Shell) :
  processActive s = true ->
  processActive (deliveries n s) = true
  /\ sigtstpTriggered (deliveries n s) = (if n is O then sigtstpTriggered s else true)
  /\ out (deliveries n s) = out s
  /\ err (deliveries n s) = err s
  /\ cwd (deliveries n s) = cwd s.
Proof.
  revert s. induction n as [|n IH]; intros s H; cbn [deliveries]; [auto|].
  destruct (deliver_sigtstp_active s H) as (A & T & O & E & C).
  destruct (IH _ A) as (A' & T' & O' & E' & C').
  rewrite A', T', O', E', C', T, O, E, C. now destruct n.
Qed.

End Frames.

(** ** routeCommand, path by path *)

Section Routes.

Variables (os : OS) (cmnd : Command) (s : Shell).

Lemma routeCommand_foreground :
  runs_foreground os cmnd s ->
  routeCommand os cmnd s =
  Ok (Continue (set_processActive false
        (after_foreground_wait
           (set_exitStatus (os_wait os)
              (deliveries (os_tstp os) (set_processActive true s)))))).
Proof.
  intros (file & childPid & A0 & Ncd & Nst & Nex & Hfork & Hfg).
  unfold routeCommand. rewrite A0. cbn. rewrite Ncd, Nst, Nex, Hfork, Hfg.
  reflexivity.
Qed.

Lemma routeCommand_status :
  arr_get (args cmnd) 0 = Ok (Some "status") ->
  routeCommand os cmnd s =
  Ok (Continue (set_processActive false
        (deliveries (os_tstp os)
           (reportStatus (exitStatus s) (set_processActive true s))))).
Proof. intros A0. unfold routeCommand. rewrite A0. reflexivity. Qed.

Lemma routeCommand_cd (dir : option string) :
  arr_get (args cmnd) 0 = Ok (Some "cd") ->
  arr_get (args cmnd) 1 = Ok dir ->
  routeCommand os cmnd s =
  Ok (Continue (set_processActive false
        (deliveries (os_tstp os) (cd os dir (set_processActive true s))))).
Proof.
  intros A0 A1. unfold routeCommand. rewrite A0. cbn [mbind res_bind deref].
  rewrite String.eqb_refl, A1. reflexivity.
Qed.

End Routes.

Lemma after_foreground_wait_exitStatus (s : Shell) :
  exitStatus (after_foreground_wait s) = exitStatus s.
Proof.
  unfold after_foreground_wait.
  destruct (WIFSIGNALED (exitStatus s)); cbn; destruct (sigtstpTriggered s); reflexivity.
Qed.

Lemma cd_exitStatus (os : OS) (dir : option string) (s : Shell) :
  exitStatus (cd os dir s) = exitStatus s.
Proof.
  unfold cd, chdir. destruct dir as [d|].
  - destruct (os_chdir os (cwd s) d); reflexivity.
  - destruct (os_home os) as [h|]; [|reflexivity].
    destruct (os_chdir os (cwd s) h); reflexivity.
Qed.

(** C9: [exitStatus] is left as it was by the non-blocking sweep of
    [burnZombie], whatever it reaps, and by SIGTSTP deliveries; a
    [routeCommand] that returns leaves it as it was unless it went through the
    foreground [waitpid], which stores the child's status in it; and a
    [routeCommand] that terminates the interpreter does not write it. *)
Theorem exitStatus_written_by_foreground_wait_only :
  (forall waits s, exitStatus (burnZombie waits s) = exitStatus s)
  /\ (forall n s, exitStatus (deliveries n s) = exitStatus s)
  /\ (forall os cmnd s s', routeCommand os cmnd s = Ok (Continue s') ->
        (runs_foreground os cmnd s /\ exitStatus s' = os_wait os)
        \/ exitStatus s' = exitStatus s)
  /\ (forall os cmnd s code s', routeCommand os cmnd s = Ok (ProcessExit code s') ->
        exitStatus s' = exitStatus s).
Proof.
  split; [exact burnZombie_exitStatus|]. split; [exact deliveries_exitStatus|]. split.
  - intros os cmnd s s' H.
    destruct (arr_get (args cmnd) 0) as [[file|]| |] eqn:A0;
      try (unfold routeCommand in H; rewrite A0 in H; discriminate).
    destruct (String.eqb file "cd") eqn:Ncd.
    { right. apply String.eqb_eq in Ncd as ->.
      destruct (arr_get (args cmnd) 1) as [dir| |] eqn:A1.
      - rewrite (routeCommand_cd _ _ _ dir A0 A1) in H. injection H as <-. cbn.
        now rewrite deliveries_exitStatus, cd_exitStatus.
      - unfold routeCommand in H. rewrite A0 in H. cbn [mbind res_bind deref] in H.
        rewrite String.eqb_refl, A1 in H. discriminate.
      - unfold routeCommand in H. rewrite A0 in H. cbn [mbind res_bind deref] in H.
        rewrite String.eqb_refl, A1 in H. discriminate. }
    destruct (String.eqb file "status") eqn:Nst.
    { right. apply String.eqb_eq in Nst as ->.
      rewrite routeCommand_status in H by exact A0. injection H as <-. cbn.
      rewrite deliveries_exitStatus. now destruct (reportStatus_frame (exitStatus s)
        (set_processActive true s)) as [-> _]. }
    destruct (String.eqb file "exit") eqn:Nex.
    { unfold routeCommand in H. rewrite A0 in H. cbn in H.
      rewrite Ncd, Nst, Nex in H. discriminate. }
    destruct (os_fork os) as [childPid|] eqn:Hfork.
    2:{ unfold routeCommand in H. rewrite A0 in H. cbn in H.
        rewrite Ncd, Nst, Nex, Hfork in H. discriminate. }
    destruct (backgroundProcess cmnd && allowBackground s) eqn:Hbg.
    + right. unfold routeCommand in H. rewrite A0 in H. cbn in H.
      rewrite Ncd, Nst, Nex, Hfork, Hbg in H. injection H as <-. cbn.
      now rewrite deliveries_exitStatus.
    + left. assert (runs_foreground os cmnd s) as F by (exists file, childPid; auto 10).
      split; [exact F|]. rewrite (routeCommand_foreground _ _ _ F) in H.
      injection H as <-. cbn [exitStatus set_processActive].
      now rewrite after_foreground_wait_exitStatus.
  - intros os cmnd s code s' H. unfold routeCommand in H. cbv zeta in H.
    destruct (arr_get (args cmnd) 0) as [[file|]| |]; try discriminate.
    cbn [mbind res_bind deref] in H.
    destruct (String.eqb file "cd").
    { destruct (arr_get _ 1); discriminate. }
    destruct (String.eqb file "status"); [discriminate|].
    destruct (String.eqb file "exit"); [now injection H as _ <-|].
    destruct (os_fork os); [|now injection H as _ <-].
    destruct (backgroundProcess cmnd && _); discriminate.
Qed.

Lemma parse_status (shell_pid : Z) :
  exists c, parseCommand shell_pid (fresh "status") = Ok c
            /\ arr_get (args c) 0 = Ok (Some "status").
Proof. eexists. split; reflexivity. Qed.

(** C8: after a command that went through the foreground wait, the next
    cycle given the line [status] completes, and all it writes after the
    sweep of that cycle is ["exit value c"] when the child exited with code
    [c], and ["terminated by signal sg"] when the child was killed by signal
    [sg]. *)
Theorem status_reports_last_foreground (os1 : OS) (cmnd1 : Command) (s : Shell) :
  runs_foreground os1 cmnd1 s ->
  exists s1, routeCommand os1 cmnd1 s = Ok (Continue s1)
    /\ forall shell_pid waits os2,
       exists s2, shell_cycle shell_pid waits "status" os2 s1 = Ok (Continue s2)
         /\ (forall c, (0 <= c < 256)%Z -> os_wait os1 = exited_with c ->
               out s2 = (out (burnZombie waits s1) ++ [("exit value " ++ fmt_d c ++ nl)%string])%list)
         /\ (forall sg core, (1 <= sg < 127)%Z -> os_wait os1 = killed_by sg core ->
               out s2 = (out (burnZombie waits s1)
                         ++ [("terminated by signal " ++ fmt_d sg ++ nl)%string])%list).
Proof.
  intros F. rewrite (routeCommand_foreground _ _ _ F).
  set (s1 := set_processActive false (after_foreground_wait _)).
  assert (exitStatus s1 = os_wait os1) as E1.
  { unfold s1. cbn [exitStatus set_processActive].
    now rewrite after_foreground_wait_exitStatus. }
  clearbody s1. exists s1. split; [reflexivity|].
  intros shell_pid waits os2.
  destruct (parse_status shell_pid) as (c & Hp & A0).
  unfold shell_cycle. rewrite Hp. cbn [mbind res_bind].
  rewrite routeCommand_status by exact A0.
  eexists. split; [reflexivity|].
  assert (exitStatus (burnZombie waits s1) = os_wait os1) as E
    by now rewrite burnZombie_exitStatus.
  cbn [out set_processActive].
  match goal with
  | |- context [deliveries ?n ?x] =>
      destruct (deliveries_active n x) as (_ & _ & -> & _)
  end.
  { now destruct (reportStatus_frame (exitStatus (burnZombie waits s1))
                    (set_processActive true (burnZombie waits s1))) as (_ & -> & _). }
  rewrite E. unfold reportStatus. split.
  - intros code Hc ->. destruct (exited_with_decodes code Hc) as [-> ->]. reflexivity.
  - intros sg core Hs ->. destruct (killed_by_decodes sg core Hs) as (-> & -> & ->).
    reflexivity.
Qed.

Lemma status_reports_last_foreground_witness :
  exists cmnd s1 s2 s3,
    parseCommand 4242 (fresh "sleep 5") = Ok cmnd
    /\ routeCommand (sample_os (exited_with 3) 0) cmnd (shell_init "/") = Ok (Continue s1)
    /\ shell_cycle 4242 [] "status" (sample_os 0 0) s1 = Ok (Continue s2)
    /\ out s2 = (out s1 ++ [("exit value 3" ++ nl)%string])%list
    /\ routeCommand (sample_os (killed_by 9 false) 0) cmnd s2 = Ok (Continue s3)
    /\ exists s4, shell_cycle 4242 [] "status" (sample_os 0 0) s3 = Ok (Continue s4)
    /\ out s4 = (out s3 ++ [("terminated by signal 9" ++ nl)%string])%list.
Proof.
  let r := eval vm_compute in (parseCommand 4242 (fresh "sleep 5")) in
  match r with
  | Ok ?cmnd =>
      assert (parseCommand 4242 (fresh "sleep 5") = Ok cmnd) as Hp by (vm_compute; reflexivity);
      assert (forall os s, os_fork os = Some 100%Z -> runs_foreground os cmnd s) as F
        by (intros os s Hf; exists "sleep", 100%Z; repeat split; assumption || reflexivity);
      destruct (status_reports_last_foreground (sample_os (exited_with 3) 0) cmnd
                  (shell_init "/") (F (sample_os (exited_with 3) 0) _ eq_refl)) as (s1 & R1 & N1);
      destruct (N1 4242%Z [] (sample_os 0 0)) as (s2 & C2 & E2 & _);
      destruct (status_reports_last_foreground (sample_os (killed_by 9 false) 0) cmnd
                  s2 (F (sample_os (killed_by 9 false) 0) _ eq_refl)) as (s3 & R3 & N3);
      destruct (N3 4242%Z [] (sample_os 0 0)) as (s4 & C4 & _ & K4);
      exists cmnd, s1, s2, s3;
      refine (conj Hp (conj R1 (conj C2 (conj (E2 3%Z _ eq_refl) (conj R3 _)))));
      [ lia | exists s4; exact (conj C4 (K4 9%Z false ltac:(lia) eq_refl)) ]
  end.
Defined.

(** ** The cd builtin *)

Lemma cd_effects (os : OS) (dir : option string) (s : Shell) :
  out (cd os dir s) = out s
  /\ processActive (cd os dir s) = processActive s
  /\ match dir with
     | Some p =>
         match os_chdir os (cwd s) p with
         | Some d => err (cd os dir s) = err s /\ cwd (cd os dir s) = d
         | None => err (cd os dir s) = (err s ++ [perror "Nope"])%list
                   /\ cwd (cd os dir s) = cwd s
         end
     | None =>
         err (cd os dir s) = err s
         /\ (chdir os (os_home os) s = None -> cwd (cd os dir s) = cwd s)
     end.
Proof.
  unfold cd, chdir. destruct dir as [p|].
  - destruct (os_chdir os (cwd s) p); cbn; auto.
  - destruct (os_home os) as [h|]; [|cbn; auto].
    destruct (os_chdir os (cwd s) h); cbn; auto. repeat split. discriminate.
Qed.

(** C10: routed to [cd], the interpreter always continues; standard error
    gains a chunk exactly when a path was given and [chdir] to it failed (the
    chunk is [perror("Nope")], and the directory is unchanged); with no
    argument a failed change to the home directory writes nothing and leaves
    the working directory as it was. *)
Theorem cd_reports_explicit_failure_only (os : OS) (cmnd : Command) (s : Shell)
    (dir : option string) :
  arr_get (args cmnd) 0 = Ok (Some "cd") ->
  arr_get (args cmnd) 1 = Ok dir ->
  exists s', routeCommand os cmnd s = Ok (Continue s')
    /\ (err s' <> err s <-> exists p, dir = Some p /\ os_chdir os (cwd s) p = None)
    /\ (forall p, dir = Some p -> os_chdir os (cwd s) p = None ->
          err s' = (err s ++ [perror "Nope"])%list /\ cwd s' = cwd s /\ out s' = out s)
    /\ (dir = None -> chdir os (os_home os) s = None ->
          err s' = err s /\ out s' = out s /\ cwd s' = cwd s).
Proof.
  intros A0 A1. rewrite (routeCommand_cd _ _ _ dir A0 A1).
  eexists. split; [reflexivity|]. cbn [err out cwd set_processActive].
  destruct (cd_effects os dir (set_processActive true s)) as (Ho & Ha & Hd).
  destruct (deliveries_active (os_tstp os) (cd os dir (set_processActive true s)))
    as (_ & _ & -> & -> & ->); [now rewrite Ha|].
  rewrite Ho. cbn [out err cwd set_processActive] in *.
  assert (forall (l : list string) x, (l ++ [x])%list <> l) as Hsnoc.
  { intros l x E. apply (f_equal (@length string)) in E.
    rewrite length_app in E. cbn in E. lia. }
  destruct dir as [p|].
  - destruct (os_chdir os (cwd s) p) as [d|] eqn:Ec; destruct Hd as [He Hc]; rewrite He.
    + split; [|split]; [split | | ]; try congruence.
      intros (q & [= <-] & Hq). congruence.
    + split; [|split]; [split | | ]; eauto; try congruence.
  - destruct Hd as [He Hc]. rewrite He. split; [|split]; [split | | ]; try congruence.
    + intros (q & Hq & _). discriminate.
    + intros _ Hh. repeat split. apply Hc. revert Hh. unfold chdir. cbn.
      destruct (os_home os) as [h|]; [|reflexivity].
      now destruct (os_chdir os (cwd s) h).
Qed.

Lemma cd_reports_explicit_failure_only_witness :
  exists cmnd s',
    parseCommand 4242 (fresh "cd /nowhere") = Ok cmnd
    /\ routeCommand (sample_os 0 0) cmnd (shell_init "/") = Ok (Continue s')
    /\ err s' = [perror "Nope"] /\ cwd s' = "/" /\ out s' = [].
Proof.
  let r := eval vm_compute in (parseCommand 4242 (fresh "cd /nowhere")) in
  match r with
  | Ok ?cmnd =>
      assert (parseCommand 4242 (fresh "cd /nowhere") = Ok cmnd) as Hp by (vm_compute; reflexivity);
      destruct (cd_reports_explicit_failure_only (sample_os 0 0) cmnd (shell_init "/")
                  (Some "/nowhere") eq_refl eq_refl) as (s' & R & _ & E & _);
      exists cmnd, s'; exact (conj Hp (conj R (E "/nowhere" eq_refl eq_refl)))
  end.
Defined.

(** ** The mode-change notice *)

Lemma handler_matches_init (dir : string) : handler_matches (shell_init dir).
Proof. reflexivity. Qed.

Lemma handler_matches_deliver (s : Shell) :
  handler_matches s -> handler_matches (deliver_sigtstp s).
Proof.
  unfold handler_matches, deliver_sigtstp, foregroundonly, allowbackground.
  destruct s as [ab tr pa h e c o er]. cbn. intros ->.
  destruct ab, pa; reflexivity.
Qed.

Lemma after_foreground_wait_pending (s : Shell) :
  sigtstpTriggered s = true ->
  out (after_foreground_wait s)
  = (out s ++ signal_report (exitStatus s)
       ++ [if allowBackground s then deferred_exiting else deferred_entering])%list
  /\ sigtstpTriggered (after_foreground_wait s) = false
  /\ allowBackground (after_foreground_wait s) = allowBackground s.
Proof.
  intros H. unfold after_foreground_wait, signal_report.
  destruct (WIFSIGNALED (exitStatus s)); cbn; rewrite H; cbn;
    rewrite <- ?app_assoc; auto.
Qed.

Lemma after_foreground_wait_quiet (s : Shell) :
  sigtstpTriggered s = false ->
  out (after_foreground_wait s) = (out s ++ signal_report (exitStatus s))%list.
Proof.
  intros H. unfold after_foreground_wait, signal_report.
  destruct (WIFSIGNALED (exitStatus s)); cbn; rewrite H; cbn; [reflexivity|].
  now rewrite app_nil_r.
Qed.

(** * Further properties of the parser *)

Section Tokenizer.

Lemma string_app_assoc (a b c : string) : (a ++ b) ++ c = a ++ (b ++ c).
Proof. induction a as [|x a IH]; cbn; [reflexivity | now rewrite IH]. Qed.

Lemma string_app_nil_r (a : string) : a ++ "" = a.
Proof. induction a as [|x a IH]; cbn; [reflexivity | now rewrite IH]. Qed.

Lemma is_token_spec (t : string) :
  is_token t = true <-> t <> "" /\ count_char " " t = 0.
Proof.
  unfold is_token. rewrite andb_true_iff, negb_true_iff, String.eqb_neq, Nat.eqb_eq.
  reflexivity.
Qed.

Lemma plain_word_spec (t : string) :
  plain_word t = true <-> is_token t = true /\ t <> "<" /\ t <> ">".
Proof.
  unfold plain_word, is_token.
  rewrite !andb_true_iff, !negb_true_iff, !String.eqb_neq. tauto.
Qed.

(** Scanning a run of characters other than the space extends the token
    being scanned. *)
Lemma strtok_from_run (t rest u : string) :
  count_char " " t = 0 ->
  strtok_from (t ++ rest) (Some u) = strtok_from rest (Some (u ++ t)).
Proof.
  revert u. induction t as [|c t IH]; intros u H.
  - now rewrite string_app_nil_r.
  - cbn in H. cbn [append strtok_from].
    destruct (Ascii.eqb c " "%char); [discriminate|].
    rewrite IH by exact H. now rewrite string_app_assoc.
Qed.

Lemma strtok_from_run_start (t rest : string) :
  is_token t = true ->
  strtok_from (t ++ rest) None = strtok_from rest (Some t).
Proof.
  intros [Hne H]%is_token_spec. destruct t as [|c t]; [congruence|].
  cbn in H. cbn [append strtok_from].
  destruct (Ascii.eqb c " "%char); [discriminate|].
  now rewrite strtok_from_run.
Qed.

Lemma strtok_from_tokens (s : string) (cur : option string) :
  (forall u, cur = Some u -> is_token u = true) ->
  Forall (fun t => is_token t = true) (strtok_from s cur).
Proof.
  revert cur. induction s as [|c s IH]; intros cur Hcur; cbn [strtok_from].
  - destruct cur as [u|]; [|constructor]. constructor; [now apply Hcur | constructor].
  - destruct (Ascii.eqb c " "%char) eqn:Hc.
    + destruct cur as [u|]; [constructor; [now apply Hcur|]|]; apply IH; discriminate.
    + apply IH. intros u [= <-]. apply is_token_spec.
      destruct cur as [v|].
      * destruct (proj1 (is_token_spec v) (Hcur v eq_refl)) as [_ Hv]. split.
        -- destruct v; discriminate.
        -- rewrite count_char_app, Hv. cbn. now rewrite Hc.
      * split; [discriminate|]. cbn. now rewrite Hc.
Qed.

End Tokenizer.

Lemma strtok_all_join (ws : list string) :
  forallb is_token ws = true -> strtok_all (join_sp ws) = ws.
Proof.
  unfold strtok_all. induction ws as [|w ws IH]; intros H; [reflexivity|].
  cbn in H. apply andb_true_iff in H as [Hw Hws].
  cbn [join_sp]. destruct ws as [|w' ws'].
  - rewrite <- (string_app_nil_r w) at 1. now rewrite strtok_from_run_start.
  - rewrite strtok_from_run_start by exact Hw.
    change (" " ++ ?x) with (String " " x). cbn [strtok_from Ascii.eqb Bool.eqb].
    f_equal. now apply IH.
Qed.

(** X1: every token the tokenizer returns is non-empty and free of spaces,
    whatever the line; and a line made of such tokens separated by single
    spaces is split back into exactly these tokens. *)
Theorem strtok_all_round_trip :
  (forall s, Forall (fun t => is_token t = true) (strtok_all s))
  /\ (forall ws, forallb is_token ws = true -> strtok_all (join_sp ws) = ws).
Proof.
  split.
  - intros s. apply strtok_from_tokens. discriminate.
  - exact strtok_all_join.
Qed.

Section PlainTokens.

#[local] Arguments MAX_ARGS : simpl never.

Lemma args_filled_filled (c : Command) (stored : list string) :
  args_filled c stored <->
  args c = filled stored /\ numArgs c = Z.of_nat (length stored)
  /\ length stored <= MAX_ARGS.
Proof. reflexivity. Qed.

Lemma arr_set_filled (stored : list string) (t : string) :
  length stored < MAX_ARGS ->
  arr_set (filled stored) (Z.of_nat (length stored)) (Some t)
  = Ok (filled (stored ++ [t])).
Proof.
  intros H. unfold arr_set, filled.
  rewrite length_app, length_fmap, length_replicate.
  destruct (Z.leb_spec 0 (Z.of_nat (length stored))); [|lia].
  destruct (Z.ltb_spec (Z.of_nat (length stored))
              (Z.of_nat (length stored + (MAX_ARGS - length stored)))); [|lia].
  cbn [andb]. f_equal. rewrite Nat2Z.id.
  assert (length (stored ++ [t]) = S (length stored)) as El
    by (rewrite length_app; simpl length; lia).
  replace (MAX_ARGS - length stored) with (S (MAX_ARGS - length (stored ++ [t]))) by lia.
  rewrite replicate_S, insert_filled, fmap_app. now rewrite <- app_assoc.
Qed.

Lemma arr_set_full (stored : list string) (x : option string) :
  length stored = MAX_ARGS ->
  arr_set (filled stored) (Z.of_nat (length stored)) x = Undef OutOfBounds.
Proof.
  intros H. unfold arr_set, filled.
  rewrite length_app, length_fmap, length_replicate.
  destruct (Z.ltb_spec (Z.of_nat (length stored))
              (Z.of_nat (length stored + (MAX_ARGS - length stored)))); [lia|].
  now rewrite andb_false_r.
Qed.

(** The loop over tokens that are all plain words stores them one by one. *)
Lemma tokenLoop_plain (toks : list string) (c : Command) (stored : list string) :
  forallb plain_word toks = true ->
  args_filled c stored ->
  length stored + length toks <= MAX_ARGS ->
  tokenLoop toks c
  = Ok (set_numArgs (Z.of_nat (length (stored ++ toks)))
          (set_args (filled (stored ++ toks)) c)).
Proof.
  revert c stored. induction toks as [|t toks IH]; intros c stored Hp F Hlen.
  - rewrite app_nil_r. destruct (proj1 (args_filled_filled _ _) F) as (Ha & Hn & _). cbn [tokenLoop].
    rewrite <- Ha, <- Hn. now destruct c.
  - cbn in Hp. apply andb_true_iff in Hp as [Ht Hp].
    apply plain_word_spec in Ht as (_ & Hlt & Hgt).
    apply String.eqb_neq in Hlt, Hgt. cbn [tokenLoop]. rewrite Hlt, Hgt.
    simpl length in Hlen.
    destruct (proj1 (args_filled_filled _ _) F) as (Ha & Hn & Hle).
    rewrite Ha, Hn, arr_set_filled by lia.
    cbn [mbind res_bind].
    rewrite (IH _ (stored ++ [t])%list Hp).
    + rewrite <- app_assoc. reflexivity.
    + split; [reflexivity|]. cbn [numArgs set_numArgs set_args].
      rewrite length_app. simpl length. split; lia.
    + rewrite length_app. simpl length. lia.
Qed.

(** One plain word more than the array has slots is written outside it. *)
Lemma tokenLoop_overflow (toks : list string) (c : Command) (stored : list string) :
  forallb plain_word toks = true ->
  args_filled c stored ->
  MAX_ARGS < length stored + length toks ->
  tokenLoop toks c = Undef OutOfBounds.
Proof.
  revert c stored. induction toks as [|t toks IH]; intros c stored Hp F Hlen.
  - destruct F as (_ & _ & Hle). simpl length in Hlen. lia.
  - cbn in Hp. apply andb_true_iff in Hp as [Ht Hp].
    apply plain_word_spec in Ht as (_ & Hlt & Hgt).
    apply String.eqb_neq in Hlt, Hgt. cbn [tokenLoop]. rewrite Hlt, Hgt.
    simpl length in Hlen.
    destruct (proj1 (args_filled_filled _ _) F) as (Ha & Hn & Hle). rewrite Ha, Hn.
    destruct (Nat.eq_dec (length stored) MAX_ARGS) as [Hfull|Hroom].
    + now rewrite arr_set_full.
    + rewrite arr_set_filled by lia. cbn [mbind res_bind].
      apply (IH _ (stored ++ [t])%list Hp).
      * split; [reflexivity|]. cbn [numArgs set_numArgs set_args].
        rewrite length_app. simpl length. split; lia.
      * rewrite length_app. simpl length. lia.
Qed.

Lemma expandPid_no_marker (shell_pid : Z) (raw : string) :
  strstr raw "$$" = None -> expandPid shell_pid raw = Ok raw.
Proof.
  intros H. unfold expandPid.
  destruct (String.length raw); cbn [expand_loop]; now rewrite H.
Qed.

Lemma plain_words_tokens (ws : list string) :
  forallb plain_word ws = true -> forallb is_token ws = true.
Proof.
  induction ws as [|w ws IH]; [reflexivity|]. cbn. intros Hp.
  apply andb_true_iff in Hp as [Hw Hp].
  apply plain_word_spec in Hw as [-> _]. now apply IH.
Qed.

Lemma token_run_token (t rest : string) :
  count_char " " t = 0 ->
  token_run t = t /\ token_run (t ++ String " " rest) = t.
Proof.
  induction t as [|c t IH]; intros H; [split; reflexivity|].
  cbn in H. cbn [append token_run].
  destruct (Ascii.eqb c " "%char); [discriminate|].
  destruct (IH H) as [-> ->]. split; reflexivity.
Qed.

(** After [strtok], the buffer of a line of words reads as its first word. *)
Lemma strtok_residue_join (ws : list string) :
  forallb is_token ws = true ->
  strtok_residue (join_sp ws) = List.hd "" ws.
Proof.
  destruct ws as [|w ws]; [reflexivity|]. cbn [forallb List.hd join_sp].
  intros H. apply andb_true_iff in H as [Hw _].
  apply is_token_spec in Hw as [Hne Hsp].
  destruct w as [|c w]; [congruence|]. cbn in Hsp.
  destruct (Ascii.eqb c " "%char) eqn:Hc; [discriminate|].
  destruct (token_run_token w (join_sp ws) Hsp) as [R1 R2].
  destruct ws as [|w' ws'].
  - cbn [strtok_residue]. now rewrite Hc, R1.
  - change (String c w ++ " " ++ join_sp (w' :: ws'))
      with (String c (w ++ String " " (join_sp (w' :: ws')))).
    cbn [strtok_residue]. rewrite Hc.
    now destruct (token_run_token w (join_sp (w' :: ws')) Hsp) as [_ ->].
Qed.

Lemma tokenize_words (shell_pid : Z) (ws : list string) :
  forallb plain_word ws = true ->
  strstr (join_sp ws) "$$" = None ->
  tokenize shell_pid (fresh (join_sp ws))
  = tokenLoop ws (fresh (List.hd "" ws)).
Proof.
  intros Hp Hm. unfold tokenize. cbn [rawCommand fresh set_rawCommand].
  rewrite (expandPid_no_marker _ _ Hm). cbn [mbind res_bind].
  pose proof (plain_words_tokens ws Hp) as Ht.
  now rewrite strtok_all_join, strtok_residue_join.
Qed.

End PlainTokens.

Section ParseShape.

#[local] Arguments MAX_ARGS : simpl never.

(** The loop stores tokens of the line only, and never an operator. *)
Lemma tokenLoop_stored (P : string -> Prop) (toks : list string) :
  forall c c',
    Forall P toks ->
    (exists stored, args_filled c stored
                    /\ Forall (fun t => P t /\ t <> "<" /\ t <> ">") stored) ->
    tokenLoop toks c = Ok c' ->
    exists stored, args_filled c' stored
                   /\ Forall (fun t => P t /\ t <> "<" /\ t <> ">") stored.
Proof.
  assert (forall n toks, length toks <= n -> forall c c',
            Forall P toks ->
            (exists stored, args_filled c stored
                            /\ Forall (fun t => P t /\ t <> "<" /\ t <> ">") stored) ->
            tokenLoop toks c = Ok c' ->
            exists stored, args_filled c' stored
                           /\ Forall (fun t => P t /\ t <> "<" /\ t <> ">") stored) as Hn.
  { clear toks. induction n as [|n IH]; intros toks Hlen c c' HP Hc H.
    - destruct toks; [|cbn in Hlen; lia]. now injection H as <-.
    - destruct toks as [|t rest]; [now injection H as <-|].
      cbn [tokenLoop] in H. cbn in Hlen.
      apply Forall_cons in HP as [Pt HP].
      destruct (String.eqb t "<") eqn:Elt; [|destruct (String.eqb t ">") eqn:Egt].
      + destruct rest as [|target rest']; [discriminate|].
        destruct (strcpy_into FILE_NAME_MAX (Some target)) as [f| |]; try discriminate.
        apply Forall_cons in HP as [_ HP].
        cbn in H, Hlen. eapply (IH rest'); [lia | exact HP | | exact H].
        destruct Hc as (stored & F & A). now exists stored.
      + destruct rest as [|target rest']; [discriminate|].
        destruct (strcpy_into FILE_NAME_MAX (Some target)) as [f| |]; try discriminate.
        apply Forall_cons in HP as [_ HP].
        cbn in H, Hlen. eapply (IH rest'); [lia | exact HP | | exact H].
        destruct Hc as (stored & F & A). now exists stored.
      + destruct (arr_set (args c) (numArgs c) (Some t)) as [a| |] eqn:E; try discriminate.
        cbn in H. eapply (IH rest); [lia | exact HP | | exact H].
        destruct Hc as (stored & F & A). exists (stored ++ [t])%list. split.
        * now apply args_filled_push.
        * apply Forall_app. split; [exact A|]. constructor; [|constructor].
          apply String.eqb_neq in Elt, Egt. auto. }
  intros c c'. now apply (Hn (length toks) toks).
Qed.

(** How a successful parse came about: the loop stored [front ++ [t]], all
    plain words, and the background check took one of its two branches. *)
Lemma parseCommand_shape (shell_pid : Z) (raw : string) (c : Command) :
  parseCommand shell_pid (fresh raw) = Ok c ->
  exists c1 front t,
    tokenize shell_pid (fresh raw) = Ok c1
    /\ args_filled c1 (front ++ [t])
    /\ Forall (fun w => plain_word w = true) (front ++ [t])
    /\ backgroundProcess c1 = false
    /\ targets_flagged c1
    /\ ((t = "&" /\ c = set_args (filled front) (set_backgroundProcess true c1))
        \/ (t <> "&" /\ (numArgs c1 < Z.of_nat MAX_ARGS)%Z /\ c = set_args (args c1) c1)).
Proof.
  unfold parseCommand. intros H.
  destruct (tokenize shell_pid (fresh raw)) as [c1| |] eqn:Htok; try discriminate.
  cbn [mbind res_bind] in H.
  destruct (tokenize_facts _ _ _ Htok) as (_ & Hbg & T).
  assert (exists stored, args_filled c1 stored
            /\ Forall (fun t => is_token t = true /\ t <> "<" /\ t <> ">") stored)
    as (stored & F & A).
  { unfold tokenize in Htok.
    destruct (expandPid shell_pid (rawCommand (fresh raw))) as [r| |]; try discriminate.
    cbn [mbind res_bind] in Htok.
    eapply (tokenLoop_stored (fun t => is_token t = true)); [| |exact Htok].
    - apply strtok_from_tokens. discriminate.
    - exists []. split; [apply (args_filled_fresh r) | constructor]. }
  destruct stored as [|t front _] using rev_ind.
  { destruct F as (_ & Hn & _). unfold backgroundCheck in H. rewrite Hn in H.
    discriminate. }
  exists c1, front, t. split; [reflexivity|]. split; [exact F|]. split.
  { eapply Forall_impl; [exact A|]. intros w Hw. now apply plain_word_spec. }
  split; [exact Hbg|]. split; [exact T|].
  rewrite (backgroundCheck_last c1 front t F) in H.
  destruct (String.eqb_spec t "&") as [->|Hne].
  - left. split; [reflexivity|]. now injection H as <-.
  - right. destruct (Z.ltb_spec (numArgs c1) (Z.of_nat MAX_ARGS)); [|discriminate].
    split; [exact Hne|]. split; [assumption|]. now injection H as <-.
Qed.

End ParseShape.

(** X2: a line of plain words separated by single spaces, with no process-id
    marker and fewer words than the array has slots, parses to exactly these
    words as the argument vector, with no redirection; a trailing ["&"] is the
    one word dropped, and it alone sets [backgroundProcess]; the line buffer,
    cut by [strtok], then reads as the first word. *)
Theorem parseCommand_words (shell_pid : Z) (front : list string) (t : string) :
  forallb plain_word (front ++ [t]) = true ->
  strstr (join_sp (front ++ [t])) "$$" = None ->
  length (front ++ [t]) < MAX_ARGS ->
  exists c, parseCommand shell_pid (fresh (join_sp (front ++ [t]))) = Ok c
    /\ argv (args c) = (if String.eqb t "&" then front else front ++ [t])%list
    /\ backgroundProcess c = String.eqb t "&"
    /\ inputRedirect c = false /\ outputRedirect c = false
    /\ rawCommand c = List.hd "" (front ++ [t]).
Proof.
  intros Hp Hm Hlen. unfold parseCommand.
  rewrite tokenize_words by assumption.
  rewrite (tokenLoop_plain _ _ [] Hp (args_filled_fresh _)) by (simpl length; lia).
  cbn [mbind res_bind app].
  match goal with |- context [backgroundCheck ?x] => set (c1 := x) end.
  assert (args_filled c1 (front ++ [t])) as F.
  { split; [reflexivity|]. split; [reflexivity | lia]. }
  rewrite (backgroundCheck_last c1 front t F).
  destruct (String.eqb t "&").
  - eexists. split; [reflexivity|]. cbn [args set_args].
    rewrite argv_filled. repeat split; reflexivity.
  - assert ((numArgs c1 <? Z.of_nat MAX_ARGS)%Z = true) as ->
      by (apply Z.ltb_lt; unfold c1; cbn [numArgs set_numArgs]; lia).
    eexists. split; [reflexivity|]. unfold c1. cbn [args set_args set_numArgs].
    unfold filled. rewrite argv_filled. repeat split; reflexivity.
Qed.

Lemma parseCommand_words_witness :
  exists c, parseCommand 4242 (fresh "wc -l notes.txt &") = Ok c
    /\ argv (args c) = ["wc"; "-l"; "notes.txt"]
    /\ backgroundProcess c = true
    /\ inputRedirect c = false /\ outputRedirect c = false
    /\ rawCommand c = "wc".
Proof.
  apply (parseCommand_words 4242 ["wc"; "-l"; "notes.txt"] "&");
    [reflexivity | reflexivity | apply Nat.ltb_lt; vm_compute; reflexivity].
Defined.

(** X3: the bounds of the argument array.  For a line of plain words with no
    marker: more than [MAX_ARGS] words make the loop store outside the array;
    exactly [MAX_ARGS] words parse only when the last is ["&"], since the
    terminator of a full vector is written outside the array. *)
Theorem parseCommand_argument_bounds (shell_pid : Z) (front : list string) (t : string) :
  forallb plain_word (front ++ [t]) = true ->
  strstr (join_sp (front ++ [t])) "$$" = None ->
  MAX_ARGS <= length (front ++ [t]) ->
  parseCommand shell_pid (fresh (join_sp (front ++ [t]))) =
  if (length (front ++ [t]) =? MAX_ARGS)%nat && String.eqb t "&"
  then Ok (set_args (filled front)
             (set_backgroundProcess true
                (set_numArgs (Z.of_nat MAX_ARGS)
                   (set_args (filled (front ++ [t])) (fresh (List.hd "" (front ++ [t])))))))
  else Undef OutOfBounds.
Proof.
  intros Hp Hm Hlen. unfold parseCommand.
  rewrite tokenize_words by assumption.
  destruct (Nat.eqb_spec (length (front ++ [t])) MAX_ARGS) as [Hfull|Hover].
  - rewrite (tokenLoop_plain _ _ [] Hp (args_filled_fresh _)) by (simpl length; lia).
    cbn [mbind res_bind app andb].
    match goal with |- context [backgroundCheck ?x] => set (c1 := x) end.
    assert (args_filled c1 (front ++ [t])) as F.
    { split; [reflexivity|]. split; [reflexivity | lia]. }
    rewrite (backgroundCheck_last c1 front t F).
    destruct (String.eqb t "&").
    + unfold c1. now rewrite Hfull.
    + assert ((numArgs c1 <? Z.of_nat MAX_ARGS)%Z = false) as ->
        by (apply Z.ltb_ge; unfold c1; cbn [numArgs set_numArgs]; lia).
      reflexivity.
  - rewrite (tokenLoop_overflow _ _ [] Hp (args_filled_fresh _)) by (simpl length; lia).
    reflexivity.
Qed.

Lemma parseCommand_argument_bounds_witness :
  parseCommand 4242 (fresh (join_sp (replicate 511 "a" ++ ["b"]))) = Undef OutOfBounds
  /\ parseCommand 4242 (fresh (join_sp (replicate 512 "a" ++ ["&"]))) = Undef OutOfBounds.
Proof.
  split.
  - apply (parseCommand_argument_bounds 4242 (replicate 511 "a") "b");
      [vm_compute; reflexivity | vm_compute; reflexivity | apply Nat.leb_le; vm_compute; reflexivity].
  - apply (parseCommand_argument_bounds 4242 (replicate 512 "a") "&");
      [vm_compute; reflexivity | vm_compute; reflexivity | apply Nat.leb_le; vm_compute; reflexivity].
Defined.

(** X4: whatever the line, a parse that succeeds leaves the argument vector
    terminated by NULL inside the array, made of non-empty tokens free of
    spaces none of which is a redirection operator; [numArgs] still counts a
    dropped ["&"]; and a target buffer is empty unless its flag is set. *)
Theorem parseCommand_result_wellformed (shell_pid : Z) (raw : string) (c : Command) :
  parseCommand shell_pid (fresh raw) = Ok c ->
  args c = filled (argv (args c))
  /\ length (argv (args c)) < MAX_ARGS
  /\ numArgs c = (Z.of_nat (length (argv (args c)))
                  + (if backgroundProcess c then 1 else 0))%Z
  /\ Forall (fun w => plain_word w = true) (argv (args c))
  /\ targets_flagged c.
Proof.
  intros H.
  destruct (parseCommand_shape _ _ _ H) as (c1 & front & t & _ & F & A & Hbg & T & Hc).
  destruct F as (Ha & Hn & Hle). rewrite length_app in Hn, Hle. simpl length in Hn, Hle.
  destruct Hc as [(-> & ->) | (Hne & Hfit & ->)]; cbn [args set_args set_backgroundProcess
    numArgs backgroundProcess].
  - assert (argv (filled front) = front) as -> by apply argv_filled.
    apply Forall_app in A as [A _].
    split; [reflexivity|]. split; [lia|]. split; [lia|]. split; [exact A | exact T].
  - assert (argv (args c1) = (front ++ [t])%list) as -> by (rewrite Ha; apply argv_filled).
    rewrite Hbg, length_app. simpl length.
    split; [exact Ha|]. split; [lia|]. split; [lia|]. split; [exact A | exact T].
Qed.

Lemma parseCommand_result_wellformed_witness :
  exists c, parseCommand 4242 (fresh "sort < in.txt > out.txt &") = Ok c
    /\ args c = filled ["sort"]
    /\ numArgs c = 2%Z
    /\ (inputFile c, outputFile c) = ("in.txt", "out.txt").
Proof.
  let r := eval vm_compute in (parseCommand 4242 (fresh "sort < in.txt > out.txt &")) in
  match r with
  | Ok ?c =>
      assert (parseCommand 4242 (fresh "sort < in.txt > out.txt &") = Ok c) as Hp
        by (vm_compute; reflexivity);
      destruct (parseCommand_result_wellformed 4242 _ c Hp) as (Ha & _ & Hn & _);
      exists c; exact (conj Hp (conj Ha (conj Hn eq_refl)))
  end.
Defined.

(** X5: a parse that succeeds with an empty argument vector came from a
    line whose only argument was ["&"]; routing it hands the NULL
    [args[0]] to [strcmp]. *)
Theorem routeCommand_empty_vector (shell_pid : Z) (raw : string) (c : Command)
    (os : OS) (s : Shell) :
  parseCommand shell_pid (fresh raw) = Ok c ->
  argv (args c) = [] ->
  backgroundProcess c = true
  /\ numArgs c = 1%Z
  /\ routeCommand os c s = Undef NullDeref.
Proof.
  intros H Hempty.
  destruct (parseCommand_shape _ _ _ H) as (c1 & front & t & _ & F & _ & _ & _ & Hc).
  destruct F as (Ha & Hn & _).
  destruct Hc as [(-> & ->) | (_ & _ & ->)]; cbn [args set_args] in Hempty.
  - unfold filled in Hempty. rewrite argv_filled in Hempty. subst front.
    split; [reflexivity|]. split; [exact Hn|]. reflexivity.
  - rewrite Ha, argv_filled in Hempty. now destruct front.
Qed.

Lemma routeCommand_empty_vector_witness :
  exists c, parseCommand 4242 (fresh "&") = Ok c
    /\ backgroundProcess c = true
    /\ numArgs c = 1%Z
    /\ routeCommand (sample_os 0 0) c (shell_init "/") = Undef NullDeref.
Proof.
  let r := eval vm_compute in (parseCommand 4242 (fresh "&")) in
  match r with
  | Ok ?c =>
      assert (parseCommand 4242 (fresh "&") = Ok c) as Hp by (vm_compute; reflexivity);
      exists c;
      exact (conj Hp (routeCommand_empty_vector 4242 "&" c (sample_os 0 0) (shell_init "/")
                        Hp eq_refl))
  end.
Defined.

(** * Further properties of the forked child *)

(** X6: the image a child loads.  Whenever the child that [routeCommand]
    forks reaches its program, the file it executes is [args[0]], which is no
    builtin and is also the first element of the NULL-terminated vector it
    passes; SIGINT has its default action exactly for a foreground child; and
    each standard stream is inherited unless its redirection was asked for or
    forced by running in the background, in which case it is bound to the
    target, or to [/dev/null] when the target is empty. *)
Theorem child_image (cos : ChildOS) (allow_background : bool) (cmnd : Command)
    (img : Image) :
  routeCommand_child cos allow_background cmnd = Ok (Some (Exec img)) ->
  arr_get (args cmnd) 0 = Ok (Some (img_file img))
  /\ String.eqb (img_file img) "cd" = false
  /\ String.eqb (img_file img) "status" = false
  /\ String.eqb (img_file img) "exit" = false
  /\ img_argv img = argv (args cmnd)
  /\ List.hd "" (img_argv img) = img_file img
  /\ img_sigint_default img = negb (backgroundProcess cmnd && allow_background)
  /\ fd_stdin (img_fds img) =
       (if inputRedirect cmnd || (backgroundProcess cmnd && allow_background)
        then BoundTo (if (String.length (inputFile cmnd) =? 0)%nat
                      then "/dev/null" else inputFile cmnd)
        else Inherited)
  /\ fd_stdout (img_fds img) =
       (if outputRedirect cmnd || (backgroundProcess cmnd && allow_background)
        then BoundTo (if (String.length (outputFile cmnd) =? 0)%nat
                      then "/dev/null" else outputFile cmnd)
        else Inherited)
  /\ os_execvp cos (img_file img) = true.
Proof.
  unfold routeCommand_child. intros H.
  destruct (arr_get (args cmnd) 0) as [[file|]| |] eqn:A0; try discriminate.
  cbn [mbind res_bind deref] in H.
  destruct (String.eqb file "cd") eqn:Ncd; [discriminate|].
  destruct (String.eqb file "status") eqn:Nst; [discriminate|].
  destruct (String.eqb file "exit") eqn:Nex; [discriminate|].
  injection H as H. unfold child in H.
  destruct (inputoutputRedirect cos _ (mkFds Inherited Inherited)) as [fds|] eqn:E;
    [|discriminate].
  destruct (os_execvp cos file) eqn:Ex; [|discriminate].
  injection H as <-. cbn [img_file img_argv img_fds img_sigint_default].
  apply inputoutputRedirect_go in E as [Ei Eo]. rewrite Ei, Eo.
  assert (List.hd "" (argv (args cmnd)) = file) as Hhd.
  { unfold arr_get in A0. cbn in A0.
    destruct (args cmnd) as [|[x|] a]; cbn in A0; try discriminate.
    now injection A0 as ->. }
  assert (forall c, argv (args (if negb (outputRedirect (if negb (inputRedirect c)
                                                          then set_inputRedirect true c else c))
                                then set_outputRedirect true
                                       (if negb (inputRedirect c)
                                        then set_inputRedirect true c else c)
                                else if negb (inputRedirect c)
                                     then set_inputRedirect true c else c))
                    = argv (args c)) as Hargs
    by (intros [r n a i f o g b p]; destruct i, o; reflexivity).
  destruct (backgroundProcess cmnd && allow_background);
    rewrite ?Hargs, ?Hhd;
    destruct (inputRedirect cmnd) eqn:Hi, (outputRedirect cmnd) eqn:Ho;
    cbn; rewrite ?Hi, ?Ho; cbn; rewrite ?Hi, ?Ho; auto 12.
Qed.

Lemma child_image_witness :
  exists cmnd img,
    parseCommand 4242 (fresh "sort < in.txt") = Ok cmnd
    /\ routeCommand_child cooperative_child_os true cmnd = Ok (Some (Exec img))
    /\ img_file img = "sort"
    /\ img_argv img = ["sort"]
    /\ img_sigint_default img = true
    /\ fd_stdin (img_fds img) = BoundTo "in.txt"
    /\ fd_stdout (img_fds img) = Inherited.
Proof.
  let r := eval vm_compute in (parseCommand 4242 (fresh "sort < in.txt")) in
  match r with
  | Ok ?cmnd =>
      let o := eval vm_compute in (routeCommand_child cooperative_child_os true cmnd) in
      match o with
      | Ok (Some (Exec ?img)) =>
          assert (parseCommand 4242 (fresh "sort < in.txt") = Ok cmnd) as Hp
            by (vm_compute; reflexivity);
          assert (routeCommand_child cooperative_child_os true cmnd
                  = Ok (Some (Exec img))) as Hc
            by (vm_compute; reflexivity);
          destruct (child_image cooperative_child_os true cmnd img Hc)
            as (_ & _ & _ & _ & Hv & _ & Hs & Hi & Ho & _);
          exists cmnd, img;
          exact (conj Hp (conj Hc (conj eq_refl (conj Hv (conj Hs (conj Hi Ho))))))
      end
  end.
Defined.

(** X7: how a child fails.  A child that does not reach the program exits
    with [EXIT_FAILURE], never with 0; a named input file that cannot be
    opened stops the child with the message naming it, whatever the output
    redirection and the program are; and when the redirections succeed but
    the program cannot be loaded the message names the program. *)
Theorem child_failures (cos : ChildOS) (allow_background : bool) (file : string)
    (cmnd : Command) :
  (forall code msg, child cos allow_background file cmnd = ChildExit code msg ->
                    code = 1%Z)
  /\ (inputRedirect cmnd = true -> (String.length (inputFile cmnd) =? 0)%nat = false ->
      os_open cos (inputFile cmnd) O_RDONLY = false ->
      child cos allow_background file cmnd
      = ChildExit 1 ("Unable to open input file: " ++ inputFile cmnd ++ "." ++ nl))
  /\ (forall fds, os_execvp cos file = false ->
      inputoutputRedirect cos
        (if backgroundProcess cmnd && allow_background
         then set_outputRedirect true (set_inputRedirect true cmnd) else cmnd)
        (mkFds Inherited Inherited) = Go fds ->
      child cos allow_background file cmnd
      = ChildExit 1 (file ++ ": no such file or directory." ++ nl)).
Proof.
  assert (forall c, (if negb (outputRedirect (if negb (inputRedirect c)
                                               then set_inputRedirect true c else c))
                     then set_outputRedirect true
                            (if negb (inputRedirect c) then set_inputRedirect true c else c)
                     else if negb (inputRedirect c) then set_inputRedirect true c else c)
                    = set_outputRedirect true (set_inputRedirect true c)) as Hforce.
  { intros [r n a i f o g b p]. destruct i, o; reflexivity. }
  split; [|split].
  - intros code msg. unfold child, inputoutputRedirect, redirect.
    repeat match goal with
           | |- context [if ?b then _ else _] => destruct b
           end; intros [=]; subst; reflexivity.
  - intros Hi Hlen Hopen. unfold child.
    assert (inputoutputRedirect cos
              (if backgroundProcess cmnd && allow_background
               then set_outputRedirect true (set_inputRedirect true cmnd) else cmnd)
              (mkFds Inherited Inherited)
            = Exit EXIT_FAILURE
                ("Unable to open input file: " ++ inputFile cmnd ++ "." ++ nl)) as E.
    { unfold inputoutputRedirect, redirect.
      destruct (backgroundProcess cmnd && allow_background); cbn;
        now rewrite ?Hi, Hlen, Hopen. }
    destruct (backgroundProcess cmnd && allow_background);
      [rewrite Hforce|]; now rewrite E.
  - intros fds Hexec E. unfold child.
    destruct (backgroundProcess cmnd && allow_background);
      [rewrite Hforce|]; now rewrite E, Hexec.
Qed.

(** * Further properties of the dispatcher *)

Section Dispatch.

Variables (os : OS) (cmnd : Command) (s : Shell).

Lemma routeCommand_external (file : string) :
  arr_get (args cmnd) 0 = Ok (Some file) ->
  String.eqb file "cd" = false ->
  String.eqb file "status" = false ->
  String.eqb file "exit" = false ->
  routeCommand os cmnd s =
  match os_fork os with
  | None => Ok (ProcessExit 1 (eprint (perror ("Hull Breach!" ++ nl))
                                 (set_processActive true s)))
  | Some childPid =>
      if backgroundProcess cmnd && allowBackground s then
        Ok (Continue (set_processActive false
              (deliveries (os_tstp os)
                 (print ("background pid is " ++ fmt_d childPid ++ nl)
                    (set_processActive true s)))))
      else
        Ok (Continue (set_processActive false
              (after_foreground_wait
                 (set_exitStatus (os_wait os)
                    (deliveries (os_tstp os) (set_processActive true s))))))
  end.
Proof.
  intros A0 Ncd Nst Nex. unfold routeCommand. rewrite A0.
  cbn [mbind res_bind deref]. rewrite Ncd, Nst, Nex. reflexivity.
Qed.

Lemma routeCommand_exit :
  arr_get (args cmnd) 0 = Ok (Some "exit") ->
  routeCommand os cmnd s = Ok (ProcessExit 0 (set_processActive true s)).
Proof. intros A0. unfold routeCommand. rewrite A0. reflexivity. Qed.

(** Every way [routeCommand] can end, by the first argument. *)
Lemma routeCommand_cases :
  (exists f, routeCommand os cmnd s = Undef f
             /\ forall file, arr_get (args cmnd) 0 <> Ok (Some file))
  \/ (arr_get (args cmnd) 0 = Ok (Some "cd")
      /\ ((exists dir, arr_get (args cmnd) 1 = Ok dir)
          \/ exists f, routeCommand os cmnd s = Undef f))
  \/ arr_get (args cmnd) 0 = Ok (Some "status")
  \/ arr_get (args cmnd) 0 = Ok (Some "exit")
  \/ (exists file, arr_get (args cmnd) 0 = Ok (Some file)
                   /\ String.eqb file "cd" = false
                   /\ String.eqb file "status" = false
                   /\ String.eqb file "exit" = false).
Proof.
  destruct (arr_get (args cmnd) 0) as [[file|]|f|] eqn:A0.
  - destruct (String.eqb_spec file "cd") as [->|Ncd].
    { right. left. split; [reflexivity|].
      destruct (arr_get (args cmnd) 1) as [dir|f|] eqn:A1; [left; eauto| |].
      - right. exists f. unfold routeCommand. rewrite A0. cbn [mbind res_bind deref].
        now rewrite String.eqb_refl, A1.
      - exfalso. unfold arr_get in A1.
        destruct (1 <? 0)%Z; [discriminate|]. destruct (args cmnd !! _); discriminate. }
    destruct (String.eqb_spec file "status") as [->|Nst]; [auto|].
    destruct (String.eqb_spec file "exit") as [->|Nex]; [auto 6|].
    right. right. right. right. exists file.
    rewrite <- !String.eqb_neq in *. auto.
  - left. exists NullDeref. unfold routeCommand. rewrite A0. split; [reflexivity|]. discriminate.
  - left. exists f. unfold routeCommand. rewrite A0. split; [reflexivity|]. discriminate.
  - exfalso. unfold arr_get in A0.
    destruct (0 <? 0)%Z; [discriminate|]. destruct (args cmnd !! _); discriminate.
Qed.

End Dispatch.

(** X8: in foreground-only mode the background marker changes nothing: the
    interpreter routes the command, and the child runs it, exactly as if the
    marker had not been given. *)
Theorem foreground_only_ignores_marker (os : OS) (cos : ChildOS) (cmnd : Command)
    (s : Shell) :
  allowBackground s = false ->
  routeCommand os cmnd s = routeCommand os (set_backgroundProcess false cmnd) s
  /\ routeCommand_child cos (allowBackground s) cmnd
     = routeCommand_child cos (allowBackground s) (set_backgroundProcess false cmnd).
Proof.
  intros H. split.
  - unfold routeCommand. cbn [args set_backgroundProcess backgroundProcess
      allowBackground set_processActive]. rewrite H, andb_false_r. reflexivity.
  - unfold routeCommand_child, child. rewrite H.
    cbn [args set_backgroundProcess backgroundProcess]. rewrite andb_false_r.
    cbn [andb negb inputRedirect outputRedirect inputFile outputFile].
    unfold inputoutputRedirect.
    cbn [inputRedirect outputRedirect inputFile outputFile set_backgroundProcess].
    reflexivity.
Qed.

Lemma foreground_only_ignores_marker_witness :
  exists cmnd s, parseCommand 4242 (fresh "sleep 5 &") = Ok cmnd
    /\ s = deliver_sigtstp (shell_init "/")
    /\ routeCommand (sample_os 0 0) cmnd s
       = routeCommand (sample_os 0 0) (set_backgroundProcess false cmnd) s
    /\ routeCommand_child cooperative_child_os (allowBackground s) cmnd
       = routeCommand_child cooperative_child_os (allowBackground s)
           (set_backgroundProcess false cmnd).
Proof.
  let r := eval vm_compute in (parseCommand 4242 (fresh "sleep 5 &")) in
  match r with
  | Ok ?cmnd =>
      assert (parseCommand 4242 (fresh "sleep 5 &") = Ok cmnd) as Hp
        by (vm_compute; reflexivity);
      exists cmnd, (deliver_sigtstp (shell_init "/"));
      exact (conj Hp (conj eq_refl
               (foreground_only_ignores_marker (sample_os 0 0) cooperative_child_os cmnd
                  (deliver_sigtstp (shell_init "/")) eq_refl)))
  end.
Defined.

(** X9: a command launched in the background: the interpreter writes
    ["background pid is <pid>"], does not wait, and returns with the last exit
    status, the mode flags of the moment and the working directory as the
    deliveries during the launch leave them; the child's wait status plays no
    part. *)
Theorem background_launch (os : OS) (cmnd : Command) (s : Shell) (file : string)
    (childPid : Z) :
  arr_get (args cmnd) 0 = Ok (Some file) ->
  String.eqb file "cd" = false ->
  String.eqb file "status" = false ->
  String.eqb file "exit" = false ->
  os_fork os = Some childPid ->
  backgroundProcess cmnd && allowBackground s = true ->
  exists s', routeCommand os cmnd s = Ok (Continue s')
    /\ out s' = (out s ++ [("background pid is " ++ fmt_d childPid ++ nl)%string])%list
    /\ err s' = err s
    /\ exitStatus s' = exitStatus s
    /\ cwd s' = cwd s
    /\ processActive s' = false
    /\ forall status,
         routeCommand (mkOS (os_home os) (os_chdir os) (os_fork os) status (os_tstp os))
                      cmnd s = Ok (Continue s').
Proof.
  intros A0 Ncd Nst Nex Hfork Hbg.
  rewrite (routeCommand_external os cmnd s file A0 Ncd Nst Nex), Hfork, Hbg.
  eexists. split; [reflexivity|].
  cbn [out err exitStatus cwd processActive set_processActive].
  destruct (deliveries_active (os_tstp os)
              (print ("background pid is " ++ fmt_d childPid ++ nl)
                 (set_processActive true s)) eq_refl) as (_ & _ & -> & -> & ->).
  rewrite deliveries_exitStatus. repeat split.
  intros status.
  rewrite (routeCommand_external _ cmnd s file A0 Ncd Nst Nex).
  cbn [os_fork os_tstp]. rewrite ?Hfork, Hbg. reflexivity.
Qed.

Lemma background_launch_witness :
  exists cmnd s', parseCommand 4242 (fresh "sleep 5 &") = Ok cmnd
    /\ routeCommand (sample_os 0 0) cmnd (shell_init "/") = Ok (Continue s')
    /\ out s' = [("background pid is 100" ++ nl)%string]
    /\ exitStatus s' = 0%Z.
Proof.
  let r := eval vm_compute in (parseCommand 4242 (fresh "sleep 5 &")) in
  match r with
  | Ok ?cmnd =>
      assert (parseCommand 4242 (fresh "sleep 5 &") = Ok cmnd) as Hp
        by (vm_compute; reflexivity);
      destruct (background_launch (sample_os 0 0) cmnd (shell_init "/") "sleep" 100
                  eq_refl eq_refl eq_refl eq_refl eq_refl eq_refl)
        as (s' & R & Ho & _ & He & _);
      exists cmnd, s'; exact (conj Hp (conj R (conj Ho He)))
  end.
Defined.

(** X10: the two ways [routeCommand] terminates the interpreter: with
    status 0 exactly for the [exit] builtin, whatever its arguments, and with
    status 1 exactly when a command that is no builtin cannot be forked. *)
Theorem routeCommand_terminates_iff (os : OS) (cmnd : Command) (s : Shell)
    (code : Z) (s' : Shell) :
  routeCommand os cmnd s = Ok (ProcessExit code s') <->
  (arr_get (args cmnd) 0 = Ok (Some "exit")
   /\ code = 0%Z /\ s' = set_processActive true s)
  \/ (exists file, arr_get (args cmnd) 0 = Ok (Some file)
        /\ String.eqb file "cd" = false
        /\ String.eqb file "status" = false
        /\ String.eqb file "exit" = false
        /\ os_fork os = None
        /\ code = 1%Z
        /\ s' = eprint (perror ("Hull Breach!" ++ nl)) (set_processActive true s)).
Proof.
  split.
  - intros H.
    destruct (routeCommand_cases os cmnd s)
      as [(f & E & _) | [(A0 & [(dir & A1) | (f & E)]) | [A0 | [A0 | (file & A0 & Ncd & Nst & Nex)]]]].
    + rewrite E in H. discriminate.
    + rewrite (routeCommand_cd _ _ _ dir A0 A1) in H. discriminate.
    + rewrite E in H. discriminate.
    + rewrite (routeCommand_status _ _ _ A0) in H. discriminate.
    + rewrite (routeCommand_exit _ _ _ A0) in H. injection H as <- <-. auto.
    + rewrite (routeCommand_external _ _ _ file A0 Ncd Nst Nex) in H.
      destruct (os_fork os) as [childPid|] eqn:Hfork.
      * destruct (backgroundProcess cmnd && allowBackground s); discriminate.
      * injection H as <- <-. right. exists file. auto 10.
  - intros [(A0 & -> & ->) | (file & A0 & Ncd & Nst & Nex & Hfork & -> & ->)].
    + now apply routeCommand_exit.
    + now rewrite (routeCommand_external _ _ _ file A0 Ncd Nst Nex), Hfork.
Qed.

(** * Further properties of the signal-mode controller *)

Section Mode.

Lemma handler_matches_same_mode (s s' : Shell) :
  allowBackground s' = allowBackground s ->
  tstpHandler s' = tstpHandler s ->
  handler_matches s -> handler_matches s'.
Proof. unfold handler_matches. now intros -> ->. Qed.

(** One delivery at the prompt. *)
Lemma deliver_sigtstp_idle (s : Shell) :
  processActive s = false ->
  handler_matches s ->
  out (deliver_sigtstp s) = (out s ++ [immediate_notice (allowBackground s)])%list
  /\ allowBackground (deliver_sigtstp s) = negb (allowBackground s)
  /\ sigtstpTriggered (deliver_sigtstp s) = false
  /\ processActive (deliver_sigtstp s) = false
  /\ handler_matches (deliver_sigtstp s)
  /\ err (deliver_sigtstp s) = err s
  /\ exitStatus (deliver_sigtstp s) = exitStatus s
  /\ cwd (deliver_sigtstp s) = cwd s.
Proof.
  unfold handler_matches, deliver_sigtstp, foregroundonly, allowbackground,
    immediate_notice.
  destruct s as [ab tr pa h e c o er]. cbn. intros -> ->.
  destruct ab; cbn; auto 10.
Qed.

Lemma deliveries_idle (n : nat) (s : Shell) :
  processActive s = false ->
  handler_matches s ->
  out (deliveries n s) = (out s ++ idle_notices n (allowBackground s))%list
  /\ allowBackground (deliveries n s) = xorb (allowBackground s) (Nat.odd n)
  /\ (0 < n -> sigtstpTriggered (deliveries n s) = false)
  /\ processActive (deliveries n s) = false
  /\ handler_matches (deliveries n s)
  /\ err (deliveries n s) = err s
  /\ cwd (deliveries n s) = cwd s.
Proof.
  revert s. induction n as [|n IH]; intros s Hidle Hm; cbn [deliveries idle_notices].
  - rewrite app_nil_r, xorb_false_r. repeat split; auto. lia.
  - destruct (deliver_sigtstp_idle s Hidle Hm) as (Ho & Ha & Ht & Hp & Hm' & He & _ & Hc).
    destruct (IH _ Hp Hm') as (Ho' & Ha' & Ht' & Hp' & Hm'' & He' & Hc').
    rewrite Ho', Ha', Ho, Ha, He', He, Hc', Hc, <- app_assoc.
    rewrite Nat.odd_succ, <- Nat.negb_odd.
    repeat split; auto.
    + now destruct (allowBackground s), (Nat.odd n).
    + intros _. destruct n as [|n]; [exact Ht | apply Ht'; lia].
Qed.

End Mode.

(** X11: deliveries at the prompt.  Starting from a state between commands,
    [n] deliveries of SIGTSTP write [n] notices, alternately entering and
    exiting; the mode is flipped when [n] is odd and restored when it is
    even; nothing is left pending; and standard error and the working
    directory are untouched. *)
Theorem idle_deliveries (n : nat) (s : Shell) :
  processActive s = false ->
  handler_matches s ->
  out (deliveries n s) = (out s ++ idle_notices n (allowBackground s))%list
  /\ length (idle_notices n (allowBackground s)) = n
  /\ allowBackground (deliveries n s) = xorb (allowBackground s) (Nat.odd n)
  /\ (0 < n -> sigtstpTriggered (deliveries n s) = false)
  /\ processActive (deliveries n s) = false
  /\ handler_matches (deliveries n s)
  /\ err (deliveries n s) = err s
  /\ cwd (deliveries n s) = cwd s.
Proof.
  intros Hidle Hm.
  destruct (deliveries_idle n s Hidle Hm) as (Ho & Ha & Ht & Hp & Hm' & He & Hc).
  repeat split; auto.
  clear. generalize (allowBackground s). induction n as [|n IH]; intros b; cbn; auto.
Qed.

Lemma idle_deliveries_witness :
  out (deliveries 3 (shell_init "/")) = [bgOff; bgOn; bgOff]
  /\ 3 = 3
  /\ allowBackground (deliveries 3 (shell_init "/")) = false
  /\ (0 < 3 -> sigtstpTriggered (deliveries 3 (shell_init "/")) = false)
  /\ processActive (deliveries 3 (shell_init "/")) = false
  /\ handler_matches (deliveries 3 (shell_init "/"))
  /\ err (deliveries 3 (shell_init "/")) = []
  /\ cwd (deliveries 3 (shell_init "/")) = "/".
Proof. exact (idle_deliveries 3 (shell_init "/") eq_refl eq_refl). Defined.

Section Pending.

Lemma cd_flags (os : OS) (dir : option string) (s : Shell) :
  sigtstpTriggered (cd os dir s) = sigtstpTriggered s
  /\ allowBackground (cd os dir s) = allowBackground s
  /\ tstpHandler (cd os dir s) = tstpHandler s
  /\ processActive (cd os dir s) = processActive s.
Proof.
  unfold cd, chdir. destruct dir as [d|].
  - destruct (os_chdir os (cwd s) d); auto.
  - destruct (os_home os) as [h|]; [|auto].
    destruct (os_chdir os (cwd s) h); auto.
Qed.

Lemma reportStatus_flags (status : Z) (s : Shell) :
  sigtstpTriggered (reportStatus status s) = sigtstpTriggered s
  /\ allowBackground (reportStatus status s) = allowBackground s
  /\ tstpHandler (reportStatus status s) = tstpHandler s
  /\ processActive (reportStatus status s) = processActive s.
Proof.
  unfold reportStatus.
  destruct (WIFEXITED status); [|destruct (WIFSIGNALED status)]; auto.
Qed.

Lemma after_foreground_wait_flags (s : Shell) :
  sigtstpTriggered (after_foreground_wait s) = false
  /\ allowBackground (after_foreground_wait s) = allowBackground s
  /\ tstpHandler (after_foreground_wait s) = tstpHandler s.
Proof.
  unfold after_foreground_wait.
  destruct (WIFSIGNALED (exitStatus s)); cbn;
    destruct (sigtstpTriggered s) eqn:E; cbn; auto.
Qed.

Lemma deliveries_pending (n : nat) (s : Shell) :
  processActive s = true ->
  sigtstpTriggered (deliveries n s) = sigtstpTriggered s || (0 <? n)%nat.
Proof.
  intros H. destruct (deliveries_active n s H) as (_ & -> & _).
  destruct n; cbn; [now rewrite orb_false_r | now rewrite orb_true_r].
Qed.

Lemma deliveries_handler_matches (n : nat) (s : Shell) :
  handler_matches s -> handler_matches (deliveries n s).
Proof.
  revert s. induction n as [|n IH]; intros s H; cbn [deliveries]; [exact H|].
  now apply IH, handler_matches_deliver.
Qed.

End Pending.

(** X12: the pending notice.  A [routeCommand] that returns leaves no
    command active; if it went through the foreground wait nothing is pending
    afterwards, and a notice that was pending on entry, or became pending
    during the command, is written once after the wait, by the mode then in
    force; on every other path a pending notice stays pending and a delivery
    during the command makes one pending. *)
Theorem pending_notice (os : OS) (cmnd : Command) (s s' : Shell) :
  routeCommand os cmnd s = Ok (Continue s') ->
  processActive s' = false
  /\ (runs_foreground os cmnd s ->
        sigtstpTriggered s' = false
        /\ out s' = (out s ++ signal_report (os_wait os)
                       ++ (if sigtstpTriggered s || (0 <? os_tstp os)%nat
                           then [if allowBackground s'
                                 then deferred_exiting else deferred_entering]
                           else []))%list)
  /\ (~ runs_foreground os cmnd s ->
        sigtstpTriggered s' = sigtstpTriggered s || (0 <? os_tstp os)%nat).
Proof.
  intros H.
  destruct (routeCommand_cases os cmnd s)
    as [(f & E & _) | [(A0 & [(dir & A1) | (f & E)]) | [A0 | [A0 | (file & A0 & Ncd & Nst & Nex)]]]].
  - rewrite E in H. discriminate.
  - rewrite (routeCommand_cd _ _ _ dir A0 A1) in H. injection H as <-.
    split; [reflexivity|]. split.
    + intros (file & pid' & A0' & Ncd & _). rewrite A0 in A0'. injection A0' as <-.
      discriminate.
    + intros _. cbn [sigtstpTriggered set_processActive].
      rewrite deliveries_pending.
      * now destruct (cd_flags os dir (set_processActive true s)) as (-> & _).
      * now destruct (cd_flags os dir (set_processActive true s)) as (_ & _ & _ & ->).
  - rewrite E in H. discriminate.
  - rewrite (routeCommand_status _ _ _ A0) in H. injection H as <-.
    split; [reflexivity|]. split.
    + intros (file & pid' & A0' & _ & Nst & _). rewrite A0 in A0'. injection A0' as <-.
      discriminate.
    + intros _. cbn [sigtstpTriggered set_processActive].
      rewrite deliveries_pending.
      * now destruct (reportStatus_flags (exitStatus s)
                        (set_processActive true s)) as (-> & _).
      * now destruct (reportStatus_flags (exitStatus s)
                        (set_processActive true s)) as (_ & _ & _ & ->).
  - rewrite (routeCommand_exit _ _ _ A0) in H. discriminate.
  - rewrite (routeCommand_external _ _ _ file A0 Ncd Nst Nex) in H.
    destruct (os_fork os) as [childPid|] eqn:Hfork; [|discriminate].
    destruct (backgroundProcess cmnd && allowBackground s) eqn:Hbg;
      injection H as <-; (split; [reflexivity|]); split.
    + intros (file' & pid' & _ & _ & _ & _ & _ & Hfg). congruence.
    + intros _. cbn [sigtstpTriggered set_processActive].
      now rewrite deliveries_pending.
    + intros _. cbn [sigtstpTriggered out allowBackground set_processActive].
      set (w := set_exitStatus (os_wait os) _).
      destruct (after_foreground_wait_flags w) as (Ht & Ha & _).
      split; [exact Ht|].
      assert (sigtstpTriggered w = sigtstpTriggered s || (0 <? os_tstp os)%nat) as Hw
        by (unfold w; cbn [sigtstpTriggered set_exitStatus];
            now rewrite deliveries_pending).
      assert (out w = out s) as Ho.
      { unfold w. cbn [out set_exitStatus].
        now destruct (deliveries_active (os_tstp os) (set_processActive true s) eq_refl)
          as (_ & _ & -> & _). }
      rewrite <- Hw, Ha.
      destruct (sigtstpTriggered w) eqn:Et.
      * destruct (after_foreground_wait_pending w Et) as (-> & _).
        now rewrite Ho.
      * rewrite (after_foreground_wait_quiet w Et), Ho, app_nil_r. reflexivity.
    + intros Hn. exfalso. apply Hn. exists file, childPid. auto 10.
Qed.

Lemma pending_notice_witness :
  exists c1 c2 s1 s2,
    parseCommand 4242 (fresh "status") = Ok c1
    /\ routeCommand (sample_os 0 1) c1 (shell_init "/") = Ok (Continue s1)
    /\ sigtstpTriggered s1 = true
    /\ parseCommand 4242 (fresh "ls") = Ok c2
    /\ routeCommand (sample_os 0 0) c2 s1 = Ok (Continue s2)
    /\ sigtstpTriggered s2 = false
    /\ out s2 = (out s1 ++ [deferred_entering])%list.
Proof.
  let r1 := eval vm_compute in (parseCommand 4242 (fresh "status")) in
  let r2 := eval vm_compute in (parseCommand 4242 (fresh "ls")) in
  match r1 with
  | Ok ?c1 =>
      match r2 with
      | Ok ?c2 =>
          let o1 := eval vm_compute in (routeCommand (sample_os 0 1) c1 (shell_init "/")) in
          match o1 with
          | Ok (Continue ?s1) =>
              let o2 := eval vm_compute in (routeCommand (sample_os 0 0) c2 s1) in
              match o2 with
              | Ok (Continue ?s2) =>
                  assert (parseCommand 4242 (fresh "status") = Ok c1) as P1
                    by (vm_compute; reflexivity);
                  assert (parseCommand 4242 (fresh "ls") = Ok c2) as P2
                    by (vm_compute; reflexivity);
                  assert (routeCommand (sample_os 0 1) c1 (shell_init "/")
                          = Ok (Continue s1)) as R1 by (vm_compute; reflexivity);
                  assert (routeCommand (sample_os 0 0) c2 s1 = Ok (Continue s2)) as R2
                    by (vm_compute; reflexivity);
                  destruct (pending_notice _ _ _ _ R1) as (_ & _ & N1);
                  destruct (pending_notice _ _ _ _ R2) as (_ & F2 & _);
                  assert (runs_foreground (sample_os 0 0) c2 s1) as F
                    by (exists "ls", 100%Z; repeat split; reflexivity);
                  destruct (F2 F) as (T2 & O2);
                  exists c1, c2, s1, s2;
                  refine (conj P1 (conj R1 (conj (N1 _) (conj P2 (conj R2 (conj T2 O2))))));
                  intros (file & pid' & A0 & _ & Nst & _); vm_compute in A0;
                  injection A0 as <-; discriminate
              end
          end
      end
  end.
Defined.

(** * Further properties of the line reader, the sweep and the loop *)

(** X13: [getCommand] returns the first read it does not discard: after a
    run of discarded reads (blank lines, lines starting with a space or with
    [#], failed reads) it returns the next line cut at its newline, leaves
    the rest of the input unread, and has written one prompt per read. *)
Theorem getCommand_first_accepted (fuel : nat) (skipped : list (option string))
    (line : string) (rest : list (option string)) (cmnd : Command) (prompts : nat) :
  Forall (fun r => discarded r = true) skipped ->
  discarded (Some line) = false ->
  String.length (chop_newline line) < MAX_INPUT ->
  length skipped < fuel ->
  getCommand fuel (skipped ++ Some line :: rest) cmnd prompts
  = Returned (set_rawCommand (chop_newline line) cmnd) rest
             (prompts + length skipped + 1).
Proof.
  intros Hs Hl Hfit. revert fuel prompts.
  induction Hs as [|r skipped Hr Hs IH]; intros fuel prompts Hfuel.
  - destruct fuel as [|fuel]; [cbn in Hfuel; lia|].
    cbn [app getCommand length]. rewrite Hl. unfold strcpy_into.
    apply Nat.ltb_lt in Hfit. rewrite Hfit. f_equal. lia.
  - destruct fuel as [|fuel]; [cbn in Hfuel; lia|].
    cbn [app getCommand]. cbn in Hfuel.
    destruct r as [l|].
    + rewrite Hr, IH by lia. f_equal. cbn [length]. lia.
    + rewrite IH by lia. f_equal. cbn [length]. lia.
Qed.

Lemma getCommand_first_accepted_witness :
  getCommand 10 [Some nl; Some ("# a comment" ++ nl); None; Some (" ls" ++ nl);
                 Some ("ls -l" ++ nl); Some ("exit" ++ nl)] calloc_Command 0
  = Returned (set_rawCommand (chop_newline ("ls -l" ++ nl)) calloc_Command)
             [Some ("exit" ++ nl)] (0 + 4 + 1).
Proof.
  apply (getCommand_first_accepted 10
           [Some nl; Some ("# a comment" ++ nl); None; Some (" ls" ++ nl)]
           ("ls -l" ++ nl) [Some ("exit" ++ nl)] calloc_Command 0).
  - repeat constructor.
  - reflexivity.
  - apply Nat.ltb_lt. vm_compute. reflexivity.
  - apply Nat.ltb_lt. vm_compute. reflexivity.
Defined.

Section Sweep.

Lemma reportStatus_chunks (status : Z) (s : Shell) :
  reportStatus status s = fold_left (fun s chunk => print chunk s) (status_chunks status) s.
Proof.
  unfold reportStatus, status_chunks.
  destruct (WIFEXITED status); [|destruct (WIFSIGNALED status)]; reflexivity.
Qed.

End Sweep.

(** X14: the sweep.  While the waits return children, [burnZombie] writes
    for each, in order, its pid and then its termination report, and changes
    nothing but standard output; it stops at the first wait that returns no
    child, leaving later ones unreaped. *)
Theorem burnZombie_reports (waits : list (Z * Z)) (s : Shell) :
  Forall (fun w => (0 < fst w)%Z) waits ->
  burnZombie waits s
  = fold_left (fun s chunk => print chunk s) (flat_map zombie_report waits) s
  /\ forall zPid zStatus later, (zPid <= 0)%Z ->
       burnZombie (waits ++ (zPid, zStatus) :: later) s = burnZombie waits s.
Proof.
  intros H. revert s. induction H as [|[p st] waits Hp H IH]; intros s.
  - split; [reflexivity|]. intros zPid zStatus later Hz. cbn.
    destruct (Z.ltb_spec 0 zPid); [lia | reflexivity].
  - cbn [fst] in Hp. apply Z.ltb_lt in Hp. split.
    + cbn [burnZombie flat_map]. rewrite Hp.
      destruct (IH (reportStatus st (print ("background pid " ++ fmt_d p ++ " is done: ") s)))
        as [-> _].
      rewrite fold_left_app. unfold zombie_report at 2. cbn [fst snd fold_left].
      now rewrite reportStatus_chunks.
    + intros zPid zStatus later Hz. cbn [burnZombie app]. rewrite Hp.
      now destruct (IH (reportStatus st (print ("background pid " ++ fmt_d p ++ " is done: ") s)))
        as [_ ->].
Qed.

Lemma burnZombie_reports_witness :
  out (burnZombie [(101%Z, exited_with 0); (102%Z, killed_by 15 false)] (shell_init "/"))
  = ["background pid 101 is done: "; "exit value 0" ++ nl;
     "background pid 102 is done: "; "terminated by signal 15" ++ nl]
  /\ burnZombie ([(101%Z, exited_with 0); (102%Z, killed_by 15 false)]
                 ++ (0%Z, 0%Z) :: [(103%Z, exited_with 1)]) (shell_init "/")
     = burnZombie [(101%Z, exited_with 0); (102%Z, killed_by 15 false)] (shell_init "/").
Proof.
  destruct (burnZombie_reports [(101%Z, exited_with 0); (102%Z, killed_by 15 false)]
              (shell_init "/")) as [E S].
  - repeat constructor.
  - split; [rewrite E; reflexivity|]. apply S. lia.
Defined.

Section Loop.

Lemma fold_print_mode (chunks : list string) (s : Shell) :
  allowBackground (fold_left (fun s chunk => print chunk s) chunks s) = allowBackground s
  /\ tstpHandler (fold_left (fun s chunk => print chunk s) chunks s) = tstpHandler s
  /\ processActive (fold_left (fun s chunk => print chunk s) chunks s) = processActive s.
Proof.
  revert s. induction chunks as [|c chunks IH]; intros s; cbn [fold_left]; [auto|].
  destruct (IH (print c s)) as (-> & -> & ->). auto.
Qed.

Lemma burnZombie_mode (waits : list (Z * Z)) (s : Shell) :
  allowBackground (burnZombie waits s) = allowBackground s
  /\ tstpHandler (burnZombie waits s) = tstpHandler s
  /\ processActive (burnZombie waits s) = processActive s.
Proof.
  revert s. induction waits as [|[p st] waits IH]; intros s; cbn [burnZombie]; [auto|].
  destruct (0 <? p)%Z; [|auto].
  destruct (IH (reportStatus st (print ("background pid " ++ fmt_d p ++ " is done: ") s)))
    as (-> & -> & ->).
  destruct (reportStatus_flags st (print ("background pid " ++ fmt_d p ++ " is done: ") s))
    as (_ & -> & -> & ->). auto.
Qed.

Lemma prompted_mode (n : nat) (s : Shell) :
  allowBackground (prompted n s) = allowBackground s
  /\ tstpHandler (prompted n s) = tstpHandler s
  /\ processActive (prompted n s) = processActive s.
Proof.
  revert s. induction n as [|n IH]; intros s; cbn [prompted]; [auto|].
  destruct (IH (print ": " s)) as (-> & -> & ->). auto.
Qed.

(** [routeCommand] keeps the installed handler in step with the mode, and
    returns with no command active. *)
Lemma routeCommand_handler_matches (os : OS) (cmnd : Command) (s : Shell) :
  handler_matches s ->
  match routeCommand os cmnd s with
  | Ok (Continue s') => handler_matches s' /\ processActive s' = false
  | Ok (ProcessExit code s') => handler_matches s' /\ (code = 0 \/ code = 1)%Z
  | _ => True
  end.
Proof.
  intros Hm.
  destruct (routeCommand_cases os cmnd s)
    as [(f & E & _) | [(A0 & [(dir & A1) | (f & E)]) | [A0 | [A0 | (file & A0 & Ncd & Nst & Nex)]]]].
  - now rewrite E.
  - rewrite (routeCommand_cd _ _ _ dir A0 A1). split; [|reflexivity].
    apply (handler_matches_same_mode (deliveries (os_tstp os)
             (cd os dir (set_processActive true s)))); [reflexivity | reflexivity |].
    apply deliveries_handler_matches.
    destruct (cd_flags os dir (set_processActive true s)) as (_ & Ha & Hh & _).
    now apply (handler_matches_same_mode s).
  - now rewrite E.
  - rewrite (routeCommand_status _ _ _ A0). split; [|reflexivity].
    apply (handler_matches_same_mode (deliveries (os_tstp os)
             (reportStatus (exitStatus s) (set_processActive true s))));
      [reflexivity | reflexivity |].
    apply deliveries_handler_matches.
    destruct (reportStatus_flags (exitStatus s) (set_processActive true s))
      as (_ & Ha & Hh & _).
    now apply (handler_matches_same_mode s).
  - rewrite (routeCommand_exit _ _ _ A0). split; [exact Hm | auto].
  - rewrite (routeCommand_external _ _ _ file A0 Ncd Nst Nex).
    destruct (os_fork os) as [childPid|]; [|split; [exact Hm | auto]].
    destruct (backgroundProcess cmnd && allowBackground s); (split; [|reflexivity]).
    + apply (handler_matches_same_mode (deliveries (os_tstp os)
               (print ("background pid is " ++ fmt_d childPid ++ nl)
                  (set_processActive true s)))); [reflexivity | reflexivity |].
      now apply deliveries_handler_matches.
    + set (w := set_exitStatus (os_wait os) _).
      destruct (after_foreground_wait_flags w) as (_ & Ha & Hh).
      apply (handler_matches_same_mode w); [exact Ha | exact Hh |].
      apply (handler_matches_same_mode (deliveries (os_tstp os) (set_processActive true s)));
        [reflexivity | reflexivity |].
      now apply deliveries_handler_matches.
Qed.

Lemma getCommand_consumes (fuel : nat) (stdin : list (option string)) (c : Command)
    (prompts : nat) (cmnd : Command) (stdin' : list (option string)) (prompts' : nat) :
  getCommand fuel stdin c prompts = Returned cmnd stdin' prompts' ->
  exists k, stdin' = drop k stdin.
Proof.
  revert stdin prompts. induction fuel as [|fuel IH]; intros stdin prompts H;
    cbn [getCommand] in H; [discriminate|].
  destruct stdin as [|[line|] rest].
  - apply IH in H as [k ->]. exists k. now rewrite drop_nil.
  - destruct (discarded (Some line)).
    + apply IH in H as [k ->]. now exists (S k).
    + destruct (strcpy_into MAX_INPUT (Some (chop_newline line))); try discriminate.
      injection H as _ <- _. now exists 1.
  - apply IH in H as [k ->]. now exists (S k).
Qed.

End Loop.

(** X15: the loop of [shell].  Started between commands with the handler
    in step with the mode, it is in such a state again whenever it is about
    to sweep, and while it reads; the input still unread is a suffix of the
    input; and if the interpreter terminates, its status is 0 or 1. *)
Theorem shell_loop_invariant (shell_pid : Z) (reads : nat) (envs : list CycleEnv)
    (stdin : list (option string)) (s : Shell) :
  processActive s = false ->
  handler_matches s ->
  match shell_loop shell_pid reads envs stdin s with
  | Looping s' stdin' =>
      processActive s' = false /\ handler_matches s' /\ exists k, stdin' = drop k stdin
  | Reading s' => processActive s' = false /\ handler_matches s'
  | Terminated code s' => (code = 0 \/ code = 1)%Z /\ handler_matches s'
  | Faulted f s' => processActive s' = false /\ handler_matches s'
  end.
Proof.
  revert stdin s. induction envs as [|e envs IH]; intros stdin s Hidle Hm;
    cbn [shell_loop].
  - split; [exact Hidle|]. split; [exact Hm|]. now exists 0.
  - destruct (burnZombie_mode (cy_waits e) s) as (Ba & Bh & Bp).
    assert (handler_matches (burnZombie (cy_waits e) s)) as Hb
      by now apply (handler_matches_same_mode s).
    assert (processActive (burnZombie (cy_waits e) s) = false) as Pb by congruence.
    assert (forall n,
              processActive (deliveries (cy_idle_tstp e)
                               (prompted n (burnZombie (cy_waits e) s))) = false
              /\ handler_matches (deliveries (cy_idle_tstp e)
                                    (prompted n (burnZombie (cy_waits e) s)))) as Hd.
    { intros n. destruct (prompted_mode n (burnZombie (cy_waits e) s)) as (Pa & Ph & Pp).
      destruct (deliveries_idle (cy_idle_tstp e) (prompted n (burnZombie (cy_waits e) s)))
        as (_ & _ & _ & Dp & Dm & _); [congruence | | auto].
      now apply (handler_matches_same_mode (burnZombie (cy_waits e) s)). }
    destruct (getCommand reads stdin calloc_Command 0) as [cmnd stdin' prompts|code|f|prompts]
      eqn:G.
    + destruct (Hd prompts) as [Dp Dm].
      destruct (parseCommand shell_pid cmnd) as [c| |]; cbn [mbind res_bind]; auto.
      pose proof (routeCommand_handler_matches (cy_os e) c _ Dm) as R.
      destruct (routeCommand (cy_os e) c _) as [[s'|code s']| |]; auto.
      * destruct R as [Rm Rp]. specialize (IH stdin' s' Rp Rm).
        destruct (shell_loop shell_pid reads envs stdin' s') as [s2 stdin2| | |]; auto.
        destruct IH as (I1 & I2 & k & ->).
        apply getCommand_consumes in G as [k' ->].
        split; [exact I1|]. split; [exact I2|]. exists (k' + k). now rewrite drop_drop.
      * destruct R as [Rm Rc]. auto.
    + now apply getCommand_never_exits in G.
    + auto.
    + apply Hd.
Qed.

Lemma shell_loop_invariant_witness :
  match shell_loop 4242 5
          [mkCycleEnv [] 1 (sample_os 0 0); mkCycleEnv [(100%Z, exited_with 0)] 0 (sample_os 0 0)]
          [Some nl; Some ("sleep 5 &" ++ nl); Some ("exit now" ++ nl); Some ("ls" ++ nl)]
          (shell_init "/") with
  | Looping s' stdin' =>
      processActive s' = false /\ handler_matches s'
      /\ exists k, stdin' = drop k [Some nl; Some ("sleep 5 &" ++ nl);
                                    Some ("exit now" ++ nl); Some ("ls" ++ nl)]
  | Reading s' => processActive s' = false /\ handler_matches s'
  | Terminated code s' => (code = 0 \/ code = 1)%Z /\ handler_matches s'
  | Faulted f s' => processActive s' = false /\ handler_matches s'
  end.
Proof.
  exact (shell_loop_invariant 4242 5
           [mkCycleEnv [] 1 (sample_os 0 0); mkCycleEnv [(100%Z, exited_with 0)] 0 (sample_os 0 0)]
           [Some nl; Some ("sleep 5 &" ++ nl); Some ("exit now" ++ nl); Some ("ls" ++ nl)]
           (shell_init "/") eq_refl eq_refl).
Defined.

(** * The mode-change notice, path by path *)



